(** * Edit-mode focus for the Obsidian "Focus and Highlight" plugin

    A shallow embedding of [src/utils/editModeFocusManager.ts] and of the
    pointer handlers of the plugin controller, followed by the properties
    the specification states about them.

    Conventions of the embedding:
    - a JavaScript string is the list of its UTF-16 code units;
    - line numbers, heading levels and metadata positions are natural
      numbers (CodeMirror line numbers are 1-based, metadata lines 0-based);
    - [doc.line(n)] raises a [RangeError] outside [1 .. doc.lines]; code
      that calls it lives in the [result] monad;
    - event time stamps are IEEE 754 doubles, as JavaScript numbers are. *)

From Stdlib Require Import Floats.PrimFloat.
From Stdlib Require Import NArith Strings.String Strings.Ascii.
From stdpp Require Import base decidable option list numbers.

Local Open Scope nat_scope.

(* ================================================================== *)
(** ** JavaScript strings *)
(* ================================================================== *)

Module JS.

(** A UTF-16 code unit. *)
Abbreviation char := N (only parsing).

(** A JavaScript string. *)
Abbreviation jsstring := (list char) (only parsing).

(** An ASCII literal as a JavaScript string. *)
Definition js (s : string) : jsstring := N_of_ascii <$> list_ascii_of_string s.

(** ECMAScript [LineTerminator]: LF, CR, LS, PS. *)
Definition is_line_terminator (c : char) : bool :=
  ((c =? 0x0A) || (c =? 0x0D) || (c =? 0x2028) || (c =? 0x2029))%N.

(** ECMAScript [WhiteSpace]: TAB, VT, FF, ZWNBSP and the space separators. *)
Definition is_white_space (c : char) : bool :=
  ((c =? 0x09) || (c =? 0x0B) || (c =? 0x0C) || (c =? 0x20) || (c =? 0xA0)
   || (c =? 0x1680) || ((0x2000 <=? c) && (c <=? 0x200A))
   || (c =? 0x202F) || (c =? 0x205F) || (c =? 0x3000) || (c =? 0xFEFF))%N.

(** The class [\s], which is also what [String.prototype.trim] strips. *)
Definition is_space (c : char) : bool := is_white_space c || is_line_terminator c.

(** The class [.] without the [s] flag. *)
Definition is_dot (c : char) : bool := negb (is_line_terminator c).

(** The literal [#]. *)
Definition is_hash (c : char) : bool := (c =? 0x23)%N.

Fixpoint drop_while (p : char → bool) (s : jsstring) : jsstring :=
  match s with
  | [] => []
  | c :: s' => if p c then drop_while p s' else s
  end.

Definition trimStart (s : jsstring) : jsstring := drop_while is_space s.
Definition trimEnd (s : jsstring) : jsstring :=
  reverse (drop_while is_space (reverse s)).

(** [s.trim()] *)
Definition trim (s : jsstring) : jsstring := trimEnd (trimStart s).

(** [s === ''] *)
Definition is_empty (s : jsstring) : bool :=
  match s with [] => true | _ :: _ => false end.

End JS.

(* ================================================================== *)
(** ** The regular expressions of the source *)
(* ================================================================== *)

(** Both patterns of the source are anchored sequences of greedily
    quantified character classes, so the engine below covers exactly that
    fragment: an atom [c{lo,hi}] first takes as many characters as it can
    and gives them back one at a time when the rest of the pattern fails. *)

Module Regex.
Import JS.

Record atom := Rep { cls : char → bool; lo : nat; hi : option nat }.

(** Length of the longest prefix of [s] whose characters are in [p]. *)
Fixpoint span (p : char → bool) (s : jsstring) : nat :=
  match s with
  | [] => 0
  | c :: s' => if p c then S (span p s') else 0
  end.

(** What the atom consumes on its first, greedy attempt. *)
Definition greedy (a : atom) (s : jsstring) : nat :=
  match hi a with
  | Some h => span (cls a) s `min` h
  | None => span (cls a) s
  end.

(** Try [f] at [k], [k-1], ..., [lo]: the backtracking order. *)
Fixpoint backtrack {A} (lo k : nat) (f : nat → option A) : option A :=
  match f k with
  | Some r => Some r
  | None =>
      match k with
      | 0 => None
      | S k' => if decide (lo ≤ k') then backtrack lo k' f else None
      end
  end.

(** [exec re s] matches [re] at the start of [s] (the [^] anchor) and
    returns, for the first match in backtracking order, how many code
    units each atom matched; [None] is JavaScript's [null]. *)
Fixpoint exec (re : list atom) (s : jsstring) : option (list nat) :=
  match re with
  | [] => Some []
  | a :: re' =>
      let m := greedy a s in
      if decide (lo a ≤ m)
      then backtrack (lo a) m (λ k, (k ::.) <$> exec re' (drop k s))
      else None
  end.

(** [/^(#{1,6})\s+(.+)/] *)
Definition heading_re : list atom :=
  [Rep is_hash 1 (Some 6); Rep is_space 1 None; Rep is_dot 1 None].

(** [/^#{1,6}\s+/] *)
Definition heading_prefix_re : list atom :=
  [Rep is_hash 1 (Some 6); Rep is_space 1 None].

(** [lineText.match(/^(#{1,6})\s+(.+)/)], reduced to [headingMatch[1].length]. *)
Definition heading_match (lineText : jsstring) : option nat :=
  exec heading_re lineText ≫= head.

(** Truthiness of [lineText.match(/^#{1,6}\s+/)]. *)
Definition heading_prefix_match (lineText : jsstring) : bool :=
  bool_decide (is_Some (exec heading_prefix_re lineText)).

End Regex.

Import JS Regex.

(* ================================================================== *)
(** ** CodeMirror documents *)
(* ================================================================== *)

Module CM.

(** Outcome of code that may raise: the only exception the modelled code
    can meet is the [RangeError] of [Text.line] and [Text.lineAt]. *)
Inductive result (A : Type) : Type :=
  | Ok (a : A)
  | RangeError.
Arguments Ok {A} a.
Arguments RangeError {A}.

#[export] Instance result_ret : MRet result := λ A a, Ok a.
#[export] Instance result_bind : MBind result := λ A B f m,
  match m with Ok a => f a | RangeError => RangeError end.
#[export] Instance result_fmap : FMap result := λ A B f m,
  match m with Ok a => Ok (f a) | RangeError => RangeError end.

(** A [Text]: the list of its lines, without the line breaks. *)
Abbreviation Doc := (list jsstring) (only parsing).

(** [doc.lines] *)
Definition lines (doc : Doc) : nat := length doc.

(** The [Line] objects handed out by [doc.line] and [doc.lineAt]. *)
Record Line := { number : nat; from : nat; text : jsstring }.

(** Offset of the first character of the line with 0-based index [k]:
    every earlier line contributes its length and one line break. *)
Definition line_start (doc : Doc) (k : nat) : nat :=
  sum_list ((λ t : jsstring, S (length t)) <$> take k doc).

(** [doc.line(n)], 1-based. *)
Definition line (doc : Doc) (n : nat) : result Line :=
  match n with
  | 0 => RangeError
  | S k =>
      match doc !! k with
      | Some t => Ok {| number := n; from := line_start doc k; text := t |}
      | None => RangeError
      end
  end.

Fixpoint lineAt_go (rest : Doc) (doc : Doc) (n pos : nat) : result Line :=
  match rest with
  | [] => RangeError
  | t :: rest' =>
      if decide (pos ≤ length t) then line doc n
      else lineAt_go rest' doc (S n) (pos - S (length t))
  end.

(** [doc.lineAt(pos)]: the line around offset [pos]; a line break belongs
    to the line it ends. *)
Definition lineAt (doc : Doc) (pos : nat) : result Line := lineAt_go doc doc 1 pos.

End CM.

Import CM.

(* ================================================================== *)
(** ** Structural metadata (Obsidian's [CachedMetadata]) *)
(* ================================================================== *)

(** [HeadingCache]: [level] and [position.start.line] (0-based). *)
Record HeadingCache := { heading_level : nat; heading_start_line : nat }.

(** [SectionCache]: [position.end.line] (0-based); the source reads it
    through optional chaining, so it may be missing. *)
Record SectionCache := { section_end_line : option nat }.

Record CachedMetadata := {
  headings : option (list HeadingCache);
  sections : option (list SectionCache)
}.

(* ================================================================== *)
(** ** [EditModeFocusManager] *)
(* ================================================================== *)

Inductive FocusType := heading | paragraph | list_item | block.

Record EditModeFocusInfo := {
  fromLine : nat;
  toLine : nat;
  type : FocusType;
  level : option nat
}.

#[export] Instance FocusType_eq_dec : EqDecision FocusType.
Proof. solve_decision. Defined.
#[export] Instance EditModeFocusInfo_eq_dec : EqDecision EditModeFocusInfo.
Proof. solve_decision. Defined.

(** The two private fields of the manager. *)
Record EditModeFocusManager := {
  metadata : option CachedMetadata;
  includeBody : bool
}.

Definition setMetadata (this : EditModeFocusManager) (md : option CachedMetadata)
  : EditModeFocusManager :=
  {| metadata := md; includeBody := includeBody this |}.

Definition setIncludeBody (this : EditModeFocusManager) (b : bool)
  : EditModeFocusManager :=
  {| metadata := metadata this; includeBody := b |}.

(** The extent returned on both early exits of [getHeadingFocusInfo]. *)
Definition single_line (headingLine lvl : nat) : EditModeFocusInfo :=
  {| fromLine := headingLine; toLine := headingLine;
     type := heading; level := Some lvl |}.

(** The [for] loop over [headings[currentHeadingIndex + 1 ..]]: the first
    heading with [level <= lvl] sets [toLine] and breaks. *)
Fixpoint next_boundary (lvl : nat) (rest : list HeadingCache) (toLine : nat) : nat :=
  match rest with
  | [] => toLine
  | h :: rest' =>
      if decide (heading_level h ≤ lvl) then heading_start_line h
      else next_boundary lvl rest' toLine
  end.

(** The block guarded by [toLine === headingLine && sections && sections.length > 0]. *)
Definition extend_to_last_section (md : CachedMetadata) (headingLine toLine : nat) : nat :=
  match sections md with
  | Some ss =>
      if decide (toLine = headingLine ∧ 0 < length ss) then
        match list.last ss with
        | Some lastSection =>
            match section_end_line lastSection with
            | Some e => e + 1
            | None => toLine
            end
        | None => toLine
        end
      else toLine
  | None => toLine
  end.

Definition getHeadingFocusInfo (this : EditModeFocusManager) (headingLine lvl : nat)
  : EditModeFocusInfo :=
  match metadata this with
  | None => single_line headingLine lvl
  | Some md =>
      match headings md with
      | None => single_line headingLine lvl
      | Some hs =>
          match list_find (λ h, heading_start_line h + 1 = headingLine) hs with
          | None => single_line headingLine lvl
          | Some (currentHeadingIndex, _) =>
              let toLine := headingLine in
              let toLine :=
                if includeBody this then
                  let toLine :=
                    next_boundary lvl (drop (S currentHeadingIndex) hs) toLine in
                  extend_to_last_section md headingLine toLine
                else toLine in
              {| fromLine := headingLine; toLine := toLine;
                 type := heading; level := Some lvl |}
          end
      end
  end.

(** The loop of [findParentHeading], run over the headings from the last
    one backwards. *)
Fixpoint scan_back (this : EditModeFocusManager) (lineNumber : nat)
    (backwards : list HeadingCache) : option EditModeFocusInfo :=
  match backwards with
  | [] => None
  | h :: earlier =>
      let headingLine := heading_start_line h + 1 in
      if decide (headingLine < lineNumber)
      then Some (getHeadingFocusInfo this headingLine (heading_level h))
      else scan_back this lineNumber earlier
  end.

Definition findParentHeading (this : EditModeFocusManager) (lineNumber : nat)
  : option EditModeFocusInfo :=
  match metadata this ≫= headings with
  | None => None
  | Some hs => scan_back this lineNumber (reverse hs)
  end.

(** The test that ends both loops of [getParagraphFocusInfo]:
    [lineText === '' || lineText.match(/^#{1,6}\s+/)] on the trimmed text. *)
Definition stops_paragraph (t : jsstring) : bool :=
  let lineText := trim t in
  is_empty lineText || heading_prefix_match lineText.

(** [for (i = lineNumber - 1; i >= 1; i--)]: structural in [i]. *)
Fixpoint scan_up (doc : Doc) (i fromLine : nat) : result nat :=
  match i with
  | 0 => Ok fromLine
  | S i' =>
      l ← line doc i;
      if stops_paragraph (text l) then Ok fromLine else scan_up doc i' i
  end.

(** [for (i = lineNumber + 1; i <= doc.lines; i++)]: [todo] is the trip
    count [doc.lines + 1 - i], so [todo = 0] is the loop test failing. *)
Fixpoint scan_down (doc : Doc) (todo i toLine : nat) : result nat :=
  match todo with
  | 0 => Ok toLine
  | S todo' =>
      l ← line doc i;
      if stops_paragraph (text l) then Ok toLine else scan_down doc todo' (S i) i
  end.

Definition getParagraphFocusInfo (lineNumber : nat) (doc : Doc)
  : result EditModeFocusInfo :=
  fromLine ← scan_up doc (lineNumber - 1) lineNumber;
  toLine ← scan_down doc (lines doc + 1 - (lineNumber + 1)) (lineNumber + 1) lineNumber;
  mret {| fromLine := fromLine; toLine := toLine; type := paragraph; level := None |}.

(** [getFocusInfoForLine]; the logger call of the no-metadata branch only
    writes to the console and is left out. *)
Definition getFocusInfoForLine (this : EditModeFocusManager) (lineNumber : nat)
    (doc : Doc) : result (option EditModeFocusInfo) :=
  l ← line doc lineNumber;
  let lineText := text l in
  match heading_match lineText with
  | Some lvl => mret (Some (getHeadingFocusInfo this lineNumber lvl))
  | None =>
      match metadata this with
      | None => Some <$> getParagraphFocusInfo lineNumber doc
      | Some _ =>
          match findParentHeading this lineNumber with
          | Some headingInfo =>
              if includeBody this then mret (Some headingInfo)
              else Some <$> getParagraphFocusInfo lineNumber doc
          | None => Some <$> getParagraphFocusInfo lineNumber doc
          end
      end
  end.

(* ================================================================== *)
(** ** The two state fields of the editor extension *)
(* ================================================================== *)

(** The effects a transaction can carry: the two defined by the plugin
    and those of everybody else. *)
Inductive StateEffect :=
  | setFocusEffect (value : option EditModeFocusInfo)
  | clearFocusEffect
  | otherEffect.

(** [effect.is(setFocusEffect) || effect.is(clearFocusEffect)] *)
Definition is_focus_effect (e : StateEffect) : bool :=
  match e with
  | setFocusEffect _ | clearFocusEffect => true
  | otherEffect => false
  end.

(** The two line decorations, named after their CSS classes
    [focus-plugin-dimmed-line] and [focus-plugin-focused-line]. *)
Inductive Decoration := dimmedLineMark | focusedLineMark.

#[export] Instance Decoration_eq_dec : EqDecision Decoration.
Proof. solve_decision. Defined.

(** A [DecorationSet]: the ranges handed to the [RangeSetBuilder], each a
    point range at a line start, in the order they were added. *)
Abbreviation DecorationSet := (list (nat * Decoration)) (only parsing).

(** [Decoration.none] *)
Definition Decoration_none : DecorationSet := [].

(** What the fields read of a transaction: [tr.effects], [tr.state.doc]
    and the action of [tr.changes] on a decoration set. *)
Record Transaction := {
  effects : list StateEffect;
  newDoc : Doc;
  mapDecorations : DecorationSet → DecorationSet
}.

(** The loop of [focusStateField.update]. *)
Fixpoint focusState_loop (effs : list StateEffect) (value : option EditModeFocusInfo)
  : option EditModeFocusInfo :=
  match effs with
  | [] => value
  | setFocusEffect v :: _ => v
  | clearFocusEffect :: _ => None
  | otherEffect :: effs' => focusState_loop effs' value
  end.

Definition focusStateField_create : option EditModeFocusInfo := None.

Definition focusStateField_update (value : option EditModeFocusInfo) (tr : Transaction)
  : option EditModeFocusInfo :=
  focusState_loop (effects tr) value.

(** The loop of [buildDecorations]; [todo] is the trip count
    [totalLines + 1 - i]. *)
Fixpoint build_loop (doc : Doc) (focusInfo : EditModeFocusInfo) (todo i : nat)
    (builder : DecorationSet) : result DecorationSet :=
  match todo with
  | 0 => Ok builder
  | S todo' =>
      l ← line doc i;
      let mark :=
        if decide (fromLine focusInfo ≤ i ∧ i ≤ toLine focusInfo)
        then focusedLineMark else dimmedLineMark in
      build_loop doc focusInfo todo' (S i) (builder ++ [(from l, mark)])
  end.

Definition buildDecorations (doc : Doc) (focusInfo : option EditModeFocusInfo)
  : result DecorationSet :=
  match focusInfo with
  | None => Ok Decoration_none
  | Some f => build_loop doc f (lines doc) 1 []
  end.

(** The loop of [focusDecorationsField.update]; [focusInfo] is
    [tr.state.field(focusStateField)], the focus state after [tr]. *)
Fixpoint decorations_loop (effs : list StateEffect) (doc : Doc)
    (focusInfo : option EditModeFocusInfo) (decorations : DecorationSet)
  : result DecorationSet :=
  match effs with
  | [] => Ok decorations
  | e :: effs' =>
      if is_focus_effect e then
        d ← buildDecorations doc focusInfo;
        decorations_loop effs' doc focusInfo d
      else decorations_loop effs' doc focusInfo decorations
  end.

Definition focusDecorationsField_create : DecorationSet := Decoration_none.

Definition focusDecorationsField_update (decorations : DecorationSet)
    (tr : Transaction) (focusInfo : option EditModeFocusInfo) : result DecorationSet :=
  decorations_loop (effects tr) (newDoc tr) focusInfo (mapDecorations tr decorations).

(** The part of an [EditorState] the plugin touches. *)
Record EditorState := {
  state_doc : Doc;
  state_focus : option EditModeFocusInfo;
  state_decorations : DecorationSet
}.

Definition EditorState_create (doc : Doc) : EditorState :=
  {| state_doc := doc;
     state_focus := focusStateField_create;
     state_decorations := focusDecorationsField_create |}.

(** Applying a transaction: the focus field first, then the decorations
    field, which reads the new focus state. *)
Definition applyTransaction (st : EditorState) (tr : Transaction) : result EditorState :=
  let v := focusStateField_update (state_focus st) tr in
  d ← focusDecorationsField_update (state_decorations st) tr v;
  mret {| state_doc := newDoc tr; state_focus := v; state_decorations := d |}.

(** [view.dispatch({effects: e})]: no document change. *)
Definition dispatch_effect (st : EditorState) (e : StateEffect) : result EditorState :=
  applyTransaction st {| effects := [e]; newDoc := state_doc st; mapDecorations := id |}.

Definition applyFocus (st : EditorState) (focusInfo : EditModeFocusInfo)
  : result EditorState :=
  dispatch_effect st (setFocusEffect (Some focusInfo)).

Definition clearFocus (st : EditorState) : result EditorState :=
  dispatch_effect st clearFocusEffect.

Definition isLineFocused (st : EditorState) (lineNumber : nat) : bool :=
  match state_focus st with
  | None => false
  | Some focusInfo =>
      bool_decide (fromLine focusInfo ≤ lineNumber ∧ lineNumber ≤ toLine focusInfo)
  end.

(* ================================================================== *)
(** ** The plugin controller: pointer handlers *)
(* ================================================================== *)

Inductive ClearMethod := click_again | click_outside.
Inductive ContentBehavior := cb_element | cb_content | cb_none.
Inductive FocusScope := scope_block | scope_content.

Record FocusPluginSettings := {
  clearMethod : ClearMethod;
  contentBehavior : ContentBehavior;
  focusScope : FocusScope;
  enableList : bool;
  focusSensitivity : float;
  indicator : bool;
  isEnabled : bool
}.

Definition DEFAULT_SETTINGS : FocusPluginSettings :=
  {| clearMethod := click_again;
     contentBehavior := cb_none;
     focusScope := scope_content;
     enableList := false;
     focusSensitivity := 1600%float;
     indicator := true;
     isEnabled := true |}.

(** An [Element] as far as the handlers look at it: its [classList]. *)
Record Element := { classList : list string }.

Definition classList_contains (el : Element) (c : string) : bool :=
  existsb (String.eqb c) (classList el).

(** [target] is [None] when [evt.target] is not an [Element]. *)
Record PointerEvent := {
  timeStamp : float;
  target : option Element;
  clientX : Z;
  clientY : Z
}.

(** The CodeMirror view: its state and its coordinate lookup. *)
Record EditorView := {
  state : EditorState;
  posAtCoords : Z → Z → option nat
}.

Inductive Mode := preview | source.

(** The active [MarkdownView]: [getMode()] and [editor?.cm]. *)
Record MarkdownView := { getMode : Mode; cm : option EditorView }.

(** What the handlers ask of the host: the active view, and the cached
    metadata of the active file ([None] without an active file or cache). *)
Record Workspace := {
  activeView : option MarkdownView;
  fileCache : option CachedMetadata
}.

Definition getEditorView (ws : Workspace) : option EditorView :=
  activeView ws ≫= cm.

(** Put a new state into the active editor view. *)
Definition with_editor_state (ws : Workspace) (st : EditorState) : Workspace :=
  {| activeView :=
       (λ v, {| getMode := getMode v;
                cm := (λ e, {| state := st; posAtCoords := posAtCoords e |}) <$> cm v |})
       <$> activeView ws;
     fileCache := fileCache ws |}.

Section Controller.

(** The preview-mode manager ([utils/focusManager], [utils/info]) is not
    among the sources: its state is a type parameter and the whole preview
    branch of the pointer-up handler a function parameter. *)
Variable FocusManager : Type.
Variable previewPointerUp :
  FocusPluginSettings → PointerEvent → Workspace → FocusManager → FocusManager.

Record FocusPlugin := {
  settings : FocusPluginSettings;
  focusManager : FocusManager;
  editModeFocusManager : EditModeFocusManager;
  lastClick : float
}.

(** The plugin together with the host state its handlers read and write. *)
Record World := { plugin : FocusPlugin; workspace : Workspace }.

Definition with_editModeFocusManager (p : FocusPlugin) (m : EditModeFocusManager)
  : FocusPlugin :=
  {| settings := settings p; focusManager := focusManager p;
     editModeFocusManager := m; lastClick := lastClick p |}.

Definition with_focusManager (p : FocusPlugin) (m : FocusManager) : FocusPlugin :=
  {| settings := settings p; focusManager := m;
     editModeFocusManager := editModeFocusManager p; lastClick := lastClick p |}.

(** The [pointerdown] handler. *)
Definition pointerdown (w : World) (evt : PointerEvent) : World :=
  {| plugin :=
       {| settings := settings (plugin w); focusManager := focusManager (plugin w);
          editModeFocusManager := editModeFocusManager (plugin w);
          lastClick := timeStamp evt |};
     workspace := workspace w |}.

(** [handleEditModeClick]; [!pos] holds for [null] and for offset 0. *)
Definition handleEditModeClick (w : World) (evt : PointerEvent) : result World :=
  match getEditorView (workspace w) with
  | None => mret w
  | Some editorView =>
      let p := with_editModeFocusManager (plugin w)
                 (setMetadata (editModeFocusManager (plugin w)) (fileCache (workspace w))) in
      let w := {| plugin := p; workspace := workspace w |} in
      let st := state editorView in
      let commit (r : result EditorState) : result World :=
        st' ← r; mret {| plugin := p; workspace := with_editor_state (workspace w) st' |} in
      match posAtCoords editorView (clientX evt) (clientY evt) with
      | None | Some 0 => mret w
      | Some pos =>
          l ← lineAt (state_doc st) pos;
          let lineNumber := number l in
          let currentFocus := state_focus st in
          let again :=
            match currentFocus, clearMethod (settings p) with
            | Some cf, click_again =>
                bool_decide (fromLine cf ≤ lineNumber ∧ lineNumber ≤ toLine cf)
            | _, _ => false
            end in
          let outside :=
            match currentFocus, clearMethod (settings p), target evt with
            | Some _, click_outside, Some el =>
                classList_contains el "cm-gutters" || classList_contains el "cm-editor"
            | _, _, _ => false
            end in
          if again then commit (clearFocus st)
          else if outside then commit (clearFocus st)
          else
            focusInfo ← getFocusInfoForLine (editModeFocusManager p) lineNumber (state_doc st);
            match focusInfo with
            | Some f => commit (applyFocus st f)
            | None => mret w
            end
      end
  end.

(** The [pointerup] handler. *)
Definition pointerup (w : World) (evt : PointerEvent) : result World :=
  let this := plugin w in
  if negb (isEnabled (settings this)) then mret w
  else if PrimFloat.ltb (focusSensitivity (settings this))
            (PrimFloat.sub (timeStamp evt) (lastClick this)) then mret w
  else
    match target evt with
    | None => mret w
    | Some _ =>
        match activeView (workspace w) with
        | None => mret w
        | Some view =>
            match getMode view with
            | preview =>
                mret {| plugin :=
                          with_focusManager this
                            (previewPointerUp (settings this) evt (workspace w)
                               (focusManager this));
                        workspace := workspace w |}
            | source => handleEditModeClick w evt
            end
        end
    end.

End Controller.

Arguments settings {FocusManager} _.
Arguments focusManager {FocusManager} _.
Arguments editModeFocusManager {FocusManager} _.
Arguments lastClick {FocusManager} _.
Arguments plugin {FocusManager} _.
Arguments workspace {FocusManager} _.
Arguments pointerdown {FocusManager} _ _.
Arguments handleEditModeClick {FocusManager} _ _.
Arguments pointerup {FocusManager} _ _ _.

(* ================================================================== *)
(** ** The plugin controller: settings and lifecycle *)
(* ================================================================== *)

(** The persisted settings object ([data.json]): any subset of the fields
    may be present. *)
Record SavedSettings := {
  saved_clearMethod : option ClearMethod;
  saved_contentBehavior : option ContentBehavior;
  saved_focusScope : option FocusScope;
  saved_enableList : option bool;
  saved_focusSensitivity : option float;
  saved_indicator : option bool;
  saved_isEnabled : option bool
}.

(** [Object.assign({}, base, data)]: the fields of [data] win; a missing
    [data] ([null]) contributes nothing. *)
Definition assign_settings (base : FocusPluginSettings) (data : option SavedSettings)
  : FocusPluginSettings :=
  match data with
  | None => base
  | Some d =>
      {| clearMethod := default (clearMethod base) (saved_clearMethod d);
         contentBehavior := default (contentBehavior base) (saved_contentBehavior d);
         focusScope := default (focusScope base) (saved_focusScope d);
         enableList := default (enableList base) (saved_enableList d);
         focusSensitivity := default (focusSensitivity base) (saved_focusSensitivity d);
         indicator := default (indicator base) (saved_indicator d);
         isEnabled := default (isEnabled base) (saved_isEnabled d) |}
  end.

(** The object [saveData(this.settings)] writes: every field. *)
Definition saved_of (s : FocusPluginSettings) : SavedSettings :=
  {| saved_clearMethod := Some (clearMethod s);
     saved_contentBehavior := Some (contentBehavior s);
     saved_focusScope := Some (focusScope s);
     saved_enableList := Some (enableList s);
     saved_focusSensitivity := Some (focusSensitivity s);
     saved_indicator := Some (indicator s);
     saved_isEnabled := Some (isEnabled s) |}.

(** [this.settings.isEnabled = b] *)
Definition set_isEnabled (s : FocusPluginSettings) (b : bool) : FocusPluginSettings :=
  {| clearMethod := clearMethod s; contentBehavior := contentBehavior s;
     focusScope := focusScope s; enableList := enableList s;
     focusSensitivity := focusSensitivity s; indicator := indicator s;
     isEnabled := b |}.

(** [settings.focusScope === 'content'] *)
Definition scope_is_content (s : FocusPluginSettings) : bool :=
  match focusScope s with scope_content => true | scope_block => false end.

(** The three lines that end most handlers: get the editor view and, if
    there is one, clear its focus. *)
Definition clearEditorFocus (ws : Workspace) : result Workspace :=
  match getEditorView ws with
  | None => mret ws
  | Some editorView =>
      st' ← clearFocus (state editorView);
      mret (with_editor_state ws st')
  end.

Section Lifecycle.

(** The methods of the preview-mode manager the controller calls; [clear]
    and [changePane] take the pane of the active view, which they read off
    the workspace. *)
Variable FocusManager : Type.
Variable fm_clearAll : FocusManager → FocusManager.
Variable fm_clear : Workspace → FocusManager → FocusManager.
Variable fm_changePane : Workspace → FocusManager → FocusManager.
Variable fm_setIncludeBody : bool → FocusManager → FocusManager.
Variable fm_init : FocusManager → FocusManager.
Variable fm_destroy : FocusManager → FocusManager.

(** The plugin and what its lifecycle code reads and writes besides the
    [World]: the persisted data, whether the status-bar item exists
    ([this.indicator]) and the text of [this.indicatorEl]. *)
Record PluginHost := {
  world : World FocusManager;
  data : option SavedSettings;
  statusBarItem : bool;
  indicatorEl : string
}.

(** [this.settings = s] *)
Definition with_settings (h : PluginHost) (s : FocusPluginSettings) : PluginHost :=
  {| world :=
       {| plugin :=
            {| settings := s;
               focusManager := focusManager (plugin (world h));
               editModeFocusManager := editModeFocusManager (plugin (world h));
               lastClick := lastClick (plugin (world h)) |};
          workspace := workspace (world h) |};
     data := data h; statusBarItem := statusBarItem h; indicatorEl := indicatorEl h |}.

(** The preview manager and the workspace replaced, the rest kept. *)
Definition with_managers (h : PluginHost) (fm : FocusManager) (ws : Workspace)
  : PluginHost :=
  {| world :=
       {| plugin :=
            {| settings := settings (plugin (world h));
               focusManager := fm;
               editModeFocusManager := editModeFocusManager (plugin (world h));
               lastClick := lastClick (plugin (world h)) |};
          workspace := ws |};
     data := data h; statusBarItem := statusBarItem h; indicatorEl := indicatorEl h |}.

(** [settingsPreprocessor]: the reconciliation run after every load and
    save. The click handler of the status-bar item is [toggle]. *)
Definition settingsPreprocessor (h : PluginHost) (s : FocusPluginSettings)
  : result PluginHost :=
  let this := plugin (world h) in
  let fm := fm_clearAll (focusManager this) in
  let fm := fm_setIncludeBody (scope_is_content s) fm in
  let em := setIncludeBody (editModeFocusManager this) (scope_is_content s) in
  ws ← clearEditorFocus (workspace (world h));
  let item :=
    if indicator s && negb (statusBarItem h) then true
    else if negb (indicator s) && statusBarItem h then false
    else statusBarItem h in
  let text := if isEnabled s then "Focus: on"%string else "Focus: off"%string in
  let fm := if isEnabled s then fm_init fm else fm_destroy fm in
  mret {| world :=
            {| plugin :=
                 {| settings := settings this; focusManager := fm;
                    editModeFocusManager := em; lastClick := lastClick this |};
               workspace := ws |};
          data := data h; statusBarItem := item; indicatorEl := text |}.

(** [loadSettings] *)
Definition loadSettings (h : PluginHost) : result PluginHost :=
  let s := assign_settings DEFAULT_SETTINGS (data h) in
  settingsPreprocessor (with_settings h s) s.

(** [saveSettings] *)
Definition saveSettings (h : PluginHost) : result PluginHost :=
  let s := settings (plugin (world h)) in
  settingsPreprocessor
    {| world := world h; data := Some (saved_of s);
       statusBarItem := statusBarItem h; indicatorEl := indicatorEl h |} s.

(** [toggle] *)
Definition toggle (h : PluginHost) : result PluginHost :=
  let s := settings (plugin (world h)) in
  saveSettings (with_settings h (set_isEnabled s (negb (isEnabled s)))).

(** The [onChange] handler of a control of the settings tab: it assigns
    the control's value to its field (the update [assign]) and saves. *)
Definition onChange (assign : FocusPluginSettings → FocusPluginSettings)
    (h : PluginHost) : result PluginHost :=
  saveSettings (with_settings h (assign (settings (plugin (world h))))).

(** The callback of the [clear-focus] command. *)
Definition clearFocusCommand (h : PluginHost) : result PluginHost :=
  let fm := fm_clearAll (focusManager (plugin (world h))) in
  ws ← clearEditorFocus (workspace (world h));
  mret (with_managers h fm ws).

(** The [layout-change] handler. *)
Definition layoutChange (h : PluginHost) : result PluginHost :=
  let ws := workspace (world h) in
  let fm := focusManager (plugin (world h)) in
  match activeView ws with
  | None => mret h
  | Some view =>
      match getMode view with
      | preview =>
          ws' ← clearEditorFocus ws;
          mret (with_managers h (fm_clear ws fm) ws')
      | source => mret (with_managers h (fm_clearAll fm) ws)
      end
  end.

(** The [active-leaf-change] handler. *)
Definition activeLeafChange (h : PluginHost) : PluginHost :=
  let ws := workspace (world h) in
  match activeView ws with
  | None => h
  | Some view =>
      match getMode view with
      | preview => with_managers h (fm_changePane ws (focusManager (plugin (world h)))) ws
      | source => h
      end
  end.

(** [onunload] *)
Definition onunload (h : PluginHost) : result PluginHost :=
  let fm := fm_destroy (focusManager (plugin (world h))) in
  ws ← clearEditorFocus (workspace (world h));
  mret (with_managers h fm ws).

End Lifecycle.

Arguments world {FocusManager} _.
Arguments data {FocusManager} _.
Arguments statusBarItem {FocusManager} _.
Arguments indicatorEl {FocusManager} _.
Arguments with_settings {FocusManager} _ _.
Arguments with_managers {FocusManager} _ _ _.
Arguments activeLeafChange {FocusManager} _ _.
Arguments settingsPreprocessor {FocusManager} _ _ _ _ _ _.
Arguments loadSettings {FocusManager} _ _ _ _ _.
Arguments saveSettings {FocusManager} _ _ _ _ _.
Arguments toggle {FocusManager} _ _ _ _ _.
Arguments onChange {FocusManager} _ _ _ _ _ _.
Arguments clearFocusCommand {FocusManager} _ _.
Arguments layoutChange {FocusManager} _ _ _.
Arguments onunload {FocusManager} _ _.

(* ================================================================== *)
(** ** The vocabulary of the specification *)
(* ================================================================== *)

Definition hash : char := 0x23%N.

(** The heading pattern in the specification's words: [n] leading [#]
    characters, [n] between 1 and 6, followed by whitespace and content
    (at least one character that does not end a line). *)
Definition heading_line (s : jsstring) (n : nat) : Prop :=
  ∃ ws c rest,
    s = replicate n hash ++ ws ++ c :: rest
    ∧ 1 ≤ n ≤ 6
    ∧ ws ≠ []
    ∧ Forall (λ w, is_space w = true) ws
    ∧ is_dot c = true.

(** What a successful [exec] returns, declaratively: every atom takes at
    least [lo] and at most its greedy share of what is left. *)
Fixpoint matches (re : list atom) (s : jsstring) (ks : list nat) : Prop :=
  match re, ks with
  | [], [] => True
  | a :: re', k :: ks' => lo a ≤ k ∧ k ≤ greedy a s ∧ matches re' (drop k s) ks'
  | _, _ => False
  end.

(** A line made of whitespace only. *)
Definition blank (t : jsstring) : Prop := Forall (λ c, is_space c = true) t.

(** The two readings of "a line that ends a paragraph": the heading
    pattern tried on the line as it stands, and on the trimmed line. *)
Definition boundary_as_stated (t : jsstring) : Prop :=
  blank t ∨ ∃ n, heading_line t n.

Definition boundary_trimmed (t : jsstring) : Prop :=
  blank t ∨ ∃ n, heading_line (trim t) n.

(** [fromLine .. toLine] is the paragraph around line [clicked]: it lies
    in the document, holds the clicked line, no line strictly between the
    clicked line and either end is a boundary, and each end is a document
    edge or has a boundary line just outside it. *)
Definition paragraph_extent (boundary : jsstring → Prop) (doc : Doc)
    (clicked fromLine toLine : nat) : Prop :=
  1 ≤ fromLine ∧ fromLine ≤ clicked ∧ clicked ≤ toLine ∧ toLine ≤ lines doc
  ∧ (∀ j l, fromLine ≤ j < clicked → line doc j = Ok l → ¬ boundary (text l))
  ∧ (∀ j l, clicked < j ≤ toLine → line doc j = Ok l → ¬ boundary (text l))
  ∧ (fromLine = 1 ∨ ∃ l, line doc (fromLine - 1) = Ok l ∧ boundary (text l))
  ∧ (toLine = lines doc ∨ ∃ l, line doc (toLine + 1) = Ok l ∧ boundary (text l)).

(** The document of the specification's paragraph example. *)
Definition H1doc : Doc :=
  [js "# H1"; js "line A"; js "line B"; js ""; js "line C"].

(** A two-line document whose second line is an indented heading. *)
Definition indented_doc : Doc := [js "a"; js " # b"].

(** [h] is the nearest heading before line [lineNumber]: the last entry
    of the metadata list whose adjusted (1-based) start line is smaller. *)
Definition nearest_preceding_heading (hs : list HeadingCache) (lineNumber : nat)
    (h : HeadingCache) : Prop :=
  ∃ before after,
    hs = before ++ h :: after
    ∧ heading_start_line h + 1 < lineNumber
    ∧ Forall (λ h', ¬ heading_start_line h' + 1 < lineNumber) after.

(** No heading of the metadata starts before line [lineNumber]. *)
Definition no_preceding_heading (md : CachedMetadata) (lineNumber : nat) : Prop :=
  match headings md with
  | None => True
  | Some hs => Forall (λ h, ¬ heading_start_line h + 1 < lineNumber) hs
  end.

(** The metadata has no heading for line [headingLine]: there is no
    metadata, or no heading list, or no entry with that adjusted line. *)
Definition unresolved_heading (this : EditModeFocusManager) (headingLine : nat) : Prop :=
  metadata this = None
  ∨ (∃ md, metadata this = Some md ∧ headings md = None)
  ∨ (∃ md hs, metadata this = Some md ∧ headings md = Some hs
       ∧ ∀ h, h ∈ hs → heading_start_line h + 1 ≠ headingLine).

(** Metadata of a document with a level-1 heading on line 1, a heading
    of level [lvl2] on line 5 and the sections [ss]. *)
Definition two_headings (lvl2 : nat) (ss : list SectionCache) : CachedMetadata :=
  {| headings := Some [ {| heading_level := 1; heading_start_line := 0 |};
                        {| heading_level := lvl2; heading_start_line := 4 |} ];
     sections := Some ss |}.

(** Sections of a ten-line document laid out as [two_headings] says. *)
Definition ten_line_sections : list SectionCache :=
  [ {| section_end_line := Some 0 |}; {| section_end_line := Some 3 |};
    {| section_end_line := Some 4 |}; {| section_end_line := Some 9 |} ].

(** ["# A"; "# B"; "text"] and its metadata: two level-1 headings on
    consecutive lines, then a paragraph. *)
Definition adjacent_doc : Doc := [js "# A"; js "# B"; js "text"].

Definition adjacent_metadata : CachedMetadata :=
  {| headings := Some [ {| heading_level := 1; heading_start_line := 0 |};
                        {| heading_level := 1; heading_start_line := 1 |} ];
     sections := Some [ {| section_end_line := Some 0 |};
                        {| section_end_line := Some 1 |};
                        {| section_end_line := Some 2 |} ] |}.

Definition adjacent_manager : EditModeFocusManager :=
  {| metadata := Some adjacent_metadata; includeBody := true |}.

(** The marker [buildDecorations] gives line [i] under the focus [f]. *)
Definition mark_for (f : EditModeFocusInfo) (i : nat) : Decoration :=
  if decide (fromLine f ≤ i ∧ i ≤ toLine f) then focusedLineMark else dimmedLineMark.

(** A sample focus and two transactions that carry both focus effects. *)
Definition sample_focus : EditModeFocusInfo :=
  {| fromLine := 2; toLine := 3; type := paragraph; level := None |}.

Definition clear_then_set : Transaction :=
  {| effects := [clearFocusEffect; setFocusEffect (Some sample_focus)];
     newDoc := H1doc; mapDecorations := id |}.

Definition other_then_set : Transaction :=
  {| effects := [otherEffect; setFocusEffect (Some sample_focus)];
     newDoc := H1doc; mapDecorations := id |}.

Definition other_then_clear : Transaction :=
  {| effects := [otherEffect; clearFocusEffect; otherEffect];
     newDoc := H1doc; mapDecorations := id |}.

Definition only_others : Transaction :=
  {| effects := [otherEffect; otherEffect];
     newDoc := H1doc; mapDecorations := id |}.

Definition set_then_clear : Transaction :=
  {| effects := [setFocusEffect (Some sample_focus); clearFocusEffect];
     newDoc := H1doc; mapDecorations := id |}.

(** The set [buildDecorations] is shown below to build: one marker per
    line, at the line's start, in document order. *)
Definition expected_decorations (doc : Doc) (f : EditModeFocusInfo) : DecorationSet :=
  (λ j, (line_start doc (j - 1), mark_for f j)) <$> seq 1 (lines doc).

(** A plugin with the default settings in a source-mode view of [H1doc],
    with a preview manager that has no state. *)
Definition sample_view : MarkdownView :=
  {| getMode := source;
     cm := Some {| state := EditorState_create H1doc;
                   posAtCoords := λ _ _, Some 6 |} |}.

Definition sample_world : World unit :=
  {| plugin := {| settings := DEFAULT_SETTINGS; focusManager := tt;
                  editModeFocusManager := {| metadata := None; includeBody := true |};
                  lastClick := 0%float |};
     workspace := {| activeView := Some sample_view; fileCache := None |} |}.

Definition pointer_at (t : float) : PointerEvent :=
  {| timeStamp := t; target := Some {| classList := ["cm-line"%string] |};
     clientX := 10; clientY := 20 |}.

(** The headings of the metadata come in document order: start lines grow
    strictly along the list. *)
Definition headings_ascending (hs : list HeadingCache) : Prop :=
  ∀ i j hi hj,
    i < j → hs !! i = Some hi → hs !! j = Some hj →
    heading_start_line hi < heading_start_line hj.

(** The last section of the metadata, when it records an end line, does
    not end before line [headingLine]. *)
Definition last_section_reaches (md : CachedMetadata) (headingLine : nat) : Prop :=
  ∀ ss sec e,
    sections md = Some ss → list.last ss = Some sec → section_end_line sec = Some e →
    headingLine ≤ e + 1.

(** The manager every other one behaves like when body inclusion is off. *)
Definition block_manager : EditModeFocusManager :=
  {| metadata := None; includeBody := false |}.

(** The state of the active editor view, if there is one. *)
Definition editor_state {FocusManager} (w : World FocusManager) : option EditorState :=
  state <$> getEditorView (workspace w).

(** A click: a pointer-down followed by a pointer-up. *)
Definition click {FocusManager}
    (previewPointerUp :
       FocusPluginSettings → PointerEvent → Workspace → FocusManager → FocusManager)
    (w : World FocusManager) (down up : PointerEvent) : result (World FocusManager) :=
  pointerup previewPointerUp (pointerdown w down) up.

(** [down] and [up] make a click that the handler takes as one on line [n]
    of the source-mode editor: the plugin is enabled, the pointer went up
    within [focusSensitivity] of going down, on an element, and the
    coordinates resolve to an offset other than 0 on line [n]. *)
Definition fast_click_on_line {FocusManager} (w : World FocusManager)
    (down up : PointerEvent) (n : nat) : Prop :=
  isEnabled (settings (plugin w)) = true
  ∧ PrimFloat.ltb (focusSensitivity (settings (plugin w)))
      (PrimFloat.sub (timeStamp up) (timeStamp down)) = false
  ∧ is_Some (target up)
  ∧ ∃ view ev pos l,
      activeView (workspace w) = Some view ∧ getMode view = source ∧ cm view = Some ev
      ∧ posAtCoords ev (clientX up) (clientY up) = Some pos ∧ pos ≠ 0
      ∧ lineAt (state_doc (state ev)) pos = Ok l ∧ number l = n.

(** The world a source-mode click leaves behind when it puts the editor
    into state [st']: the manager holds the metadata of the active file
    and [lastClick] the time of the pointer-down. *)
Definition after_click {FocusManager} (w : World FocusManager) (down : PointerEvent)
    (st' : EditorState) : World FocusManager :=
  {| plugin :=
       {| settings := settings (plugin w);
          focusManager := focusManager (plugin w);
          editModeFocusManager :=
            setMetadata (editModeFocusManager (plugin w)) (fileCache (workspace w));
          lastClick := timeStamp down |};
     workspace := with_editor_state (workspace w) st' |}.

(** [sample_world] with the clear method set to click-outside. *)
Definition sample_world_outside : World unit :=
  {| plugin :=
       {| settings :=
            {| clearMethod := click_outside; contentBehavior := cb_none;
               focusScope := scope_content; enableList := false;
               focusSensitivity := 1600%float; indicator := true;
               isEnabled := true |};
          focusManager := tt;
          editModeFocusManager := {| metadata := None; includeBody := true |};
          lastClick := 0%float |};
     workspace := {| activeView := Some sample_view; fileCache := None |} |}.

(** What a pointer-up that turns [w] into [w'] is shown to leave alone. *)
Definition pointerup_frame {FocusManager} (w w' : World FocusManager) : Prop :=
  settings (plugin w') = settings (plugin w)
  ∧ lastClick (plugin w') = lastClick (plugin w)
  ∧ includeBody (editModeFocusManager (plugin w'))
    = includeBody (editModeFocusManager (plugin w))
  ∧ fileCache (workspace w') = fileCache (workspace w)
  ∧ getMode <$> activeView (workspace w') = getMode <$> activeView (workspace w)
  ∧ (state_doc ∘ state) <$> getEditorView (workspace w')
    = (state_doc ∘ state) <$> getEditorView (workspace w)
  ∧ (metadata (editModeFocusManager (plugin w'))
       = metadata (editModeFocusManager (plugin w))
     ∨ metadata (editModeFocusManager (plugin w')) = fileCache (workspace w))
  ∧ (getMode <$> activeView (workspace w) = Some source →
     focusManager (plugin w') = focusManager (plugin w))
  ∧ (getMode <$> activeView (workspace w) = Some preview →
     workspace w' = workspace w
     ∧ editModeFocusManager (plugin w') = editModeFocusManager (plugin w)).

(** The workspace with the focus of its editor view, if any, cleared. *)
Definition cleared_workspace (ws : Workspace) : Workspace :=
  match getEditorView ws with
  | None => ws
  | Some ev => with_editor_state ws (EditorState_create (state_doc (state ev)))
  end.

(** A host around [sample_world] with a focused editor, nothing saved and
    no status-bar item yet. *)
Definition focused_world : World unit :=
  after_click sample_world (pointer_at 100)
    {| state_doc := H1doc; state_focus := Some sample_focus;
       state_decorations := expected_decorations H1doc sample_focus |}.

Definition sample_host : PluginHost unit :=
  {| world := focused_world; data := None; statusBarItem := false;
     indicatorEl := ""%string |}.

(** ["# A"; "  # B"; "text"]: the second heading is indented, so the
    pattern of [getFocusInfoForLine] does not match it, while the metadata
    ([adjacent_metadata]) lists it as a heading all the same. *)
Definition indented_heading_doc : Doc := [js "# A"; js "  # B"; js "text"].

(** A pointer event on the editor's gutter. *)
Definition gutter_at (t : float) : PointerEvent :=
  {| timeStamp := t; target := Some {| classList := ["cm-gutters"%string] |};
     clientX := 10; clientY := 20 |}.

(** [sample_world_outside] after a click has focused lines 2 to 3. *)
Definition focused_world_outside : World unit :=
  after_click sample_world_outside (pointer_at 100)
    {| state_doc := H1doc; state_focus := Some sample_focus;
       state_decorations := expected_decorations H1doc sample_focus |}.

(* ================================================================== *)
(** * Properties *)
(* ================================================================== *)

(** One step of the [result] monad: expose the outcome of a bind. *)
Ltac result_step := cbn [mbind result_bind mret result_ret fmap result_fmap].

(** ** Strings and patterns *)

Section StringFacts.

Implicit Types (p : char → bool) (s t u : jsstring) (c : char).

Lemma is_hash_eq c : is_hash c = true ↔ c = hash.
Proof. unfold is_hash, hash. apply N.eqb_eq. Qed.

Lemma space_not_hash c : is_space c = true → is_hash c = false.
Proof.
  intros Hs. destruct (is_hash c) eqn:Hh; [|done].
  apply is_hash_eq in Hh. subst c. discriminate Hs.
Qed.

Lemma not_space_is_dot c : is_space c = false → is_dot c = true.
Proof.
  unfold is_space, is_dot. intros H.
  apply orb_false_iff in H as [_ ->]. done.
Qed.

Lemma drop_while_head p s c s' : drop_while p s = c :: s' → p c = false.
Proof.
  induction s as [|a s IH]; simpl; [done|].
  destruct (p a) eqn:Ha; [done|]. intros [= <- <-]. done.
Qed.

Lemma drop_while_nil p s : drop_while p s = [] ↔ Forall (λ c, p c = true) s.
Proof.
  induction s as [|a s IH]; simpl.
  - split; [constructor|done].
  - destruct (p a) eqn:Ha.
    + rewrite IH. split; [by constructor|by inversion 1].
    + split; [done|]. intros H1%Forall_inv. simpl in H1. congruence.
Qed.

(** [trim] returns the empty string exactly on whitespace-only lines. *)
Lemma trim_nil t : trim t = [] ↔ blank t.
Proof.
  unfold trim, trimEnd, trimStart, blank.
  rewrite <- (drop_while_nil is_space t).
  split.
  - intros H. apply (f_equal reverse) in H. rewrite reverse_involutive in H.
    simpl in H. apply drop_while_nil in H. rewrite Forall_reverse in H.
    destruct (drop_while is_space t) as [|c s'] eqn:E; [done|].
    apply drop_while_head in E. apply Forall_inv in H. simpl in H. congruence.
  - intros ->. done.
Qed.

(** A trimmed string does not end in whitespace. *)
Lemma trim_last t c : list.last (trim t) = Some c → is_space c = false.
Proof.
  unfold trim, trimEnd. rewrite last_reverse.
  destruct (drop_while is_space (reverse (trimStart t))) as [|a s'] eqn:E; [done|].
  simpl. intros [= <-]. by apply drop_while_head in E.
Qed.

Lemma span_le_length p s : span p s ≤ length s.
Proof. induction s as [|a s IH]; simpl; [lia|]. destruct (p a); simpl; lia. Qed.

Lemma span_take p s k : k ≤ span p s → Forall (λ c, p c = true) (take k s).
Proof.
  revert k. induction s as [|a s IH]; intros [|k]; simpl; try by constructor.
  destruct (p a) eqn:Ha; [|lia]. intros Hk. constructor; [done|]. apply IH. lia.
Qed.

Lemma span_next p s c : s !! span p s = Some c → p c = false.
Proof.
  induction s as [|a s IH]; simpl; [done|].
  destruct (p a) eqn:Ha; simpl; [done|]. by intros [= <-].
Qed.

Lemma span_app_all p s t :
  Forall (λ c, p c = true) s → span p (s ++ t) = length s + span p t.
Proof. induction 1 as [|a s Ha _ IH]; simpl; [done|]. by rewrite Ha, IH. Qed.

Lemma span_pos p s : 1 ≤ span p s → ∃ c s', s = c :: s' ∧ p c = true.
Proof.
  destruct s as [|a s]; simpl; [lia|]. destruct (p a) eqn:Ha; [|lia]. eauto.
Qed.

Lemma all_hash s : Forall (λ c, is_hash c = true) s → s = replicate (length s) hash.
Proof.
  induction 1 as [|a s Ha _ IH]; simpl; [done|].
  apply is_hash_eq in Ha. by rewrite Ha, <- IH.
Qed.

Lemma replicate_hash_all n : Forall (λ c, is_hash c = true) (replicate n hash).
Proof. apply Forall_replicate. done. Qed.

End StringFacts.

(** ** The matcher *)

Lemma backtrack_Some_inv {A} (f : nat → option A) l k r :
  backtrack l k f = Some r → ∃ j, j ≤ k ∧ (l ≤ j ∨ j = k) ∧ f j = Some r.
Proof.
  induction k as [|k IH]; simpl.
  - destruct (f 0) eqn:E; [|done]. intros [= <-]. exists 0. auto.
  - destruct (f (S k)) eqn:E.
    + intros [= <-]. exists (S k). auto.
    + case_decide; [|done]. intros (j & ? & ? & ?)%IH.
      exists j. split; [lia|]. split; [|done]. lia.
Qed.

Lemma backtrack_is_Some {A} (f : nat → option A) l k j :
  l ≤ j ≤ k → is_Some (f j) → is_Some (backtrack l k f).
Proof.
  intros Hj Hf. induction k as [|k IH]; simpl.
  - assert (j = 0) as -> by lia. destruct Hf as [r ->]. eauto.
  - destruct (f (S k)) eqn:E; [eauto|].
    destruct (decide (j = S k)) as [->|]; [rewrite E in Hf; by destruct Hf|].
    case_decide; [apply IH; lia|lia].
Qed.

Lemma exec_sound re s ks : exec re s = Some ks → matches re s ks.
Proof.
  revert s ks. induction re as [|a re IH]; intros s ks; simpl.
  - by intros [= <-].
  - case_decide as Hlo; [|done].
    intros (j & Hj & Hl & Hf)%backtrack_Some_inv.
    destruct (exec re (drop j s)) as [ks'|] eqn:E; [|done].
    simpl in Hf. injection Hf as <-. simpl.
    split; [lia|]. split; [done|]. by apply IH.
Qed.

Lemma exec_complete re s ks : matches re s ks → is_Some (exec re s).
Proof.
  revert s ks. induction re as [|a re IH]; intros s [|k ks]; simpl; try done.
  intros (Hlo & Hk & Hm).
  case_decide; [|lia].
  apply (backtrack_is_Some _ _ _ k); [lia|].
  destruct (IH _ _ Hm) as [r ->]. simpl. eauto.
Qed.

(** The first atom of both patterns takes the whole run of leading [#]:
    a shorter share leaves a [#] where whitespace is due. *)
Lemma hashes_then_space s k j :
  k ≤ span is_hash s → 1 ≤ j → j ≤ span is_space (drop k s) → k = span is_hash s.
Proof.
  intros Hk Hj Hsp.
  destruct (span_pos is_space (drop k s)) as (c & s' & Hd & Hc); [lia|].
  assert (s !! k = Some c) as Hlk.
  { replace k with (k + 0) by lia. rewrite <- lookup_drop, Hd. done. }
  destruct (decide (k = span is_hash s)) as [|Hne]; [done|exfalso].
  assert (Forall (λ c, is_hash c = true) (take (S k) s)) as Hall
    by (apply span_take; lia).
  rewrite Forall_lookup in Hall.
  specialize (Hall k c). rewrite lookup_take in Hall.
  case_decide; [|lia]. specialize (Hall Hlk). simpl in Hall.
  apply space_not_hash in Hc. congruence.
Qed.

Lemma span_hash_heading_line s n : heading_line s n → span is_hash s = n.
Proof.
  intros (ws & c & rest & -> & _ & Hws & Hall & _).
  rewrite span_app_all by apply replicate_hash_all.
  rewrite length_replicate.
  destruct Hall as [|w ws' Hw _]; [done|]. simpl.
  rewrite (space_not_hash _ Hw). lia.
Qed.

Example heading_match_h1 : heading_match (js "# H1") = Some 1.
Proof. reflexivity. Qed.

Example heading_match_h3 : heading_match (js "###   deep") = Some 3.
Proof. reflexivity. Qed.

Example heading_match_seven_hashes : heading_match (js "####### seven") = None.
Proof. reflexivity. Qed.

Example heading_match_tag : heading_match (js "#tag") = None.
Proof. reflexivity. Qed.

Example heading_match_no_content : heading_match (js "# ") = None.
Proof. reflexivity. Qed.

Example heading_match_indented : heading_match (js "  # H") = None.
Proof. reflexivity. Qed.

Example trim_indented_heading : trim (js "  # H  ") = js "# H".
Proof. reflexivity. Qed.

Example stops_paragraph_indented : stops_paragraph (js "  # H") = true.
Proof. reflexivity. Qed.

(** The source's heading pattern is the specification's: [match] succeeds
    with a first group of length [n] exactly on the lines that start with
    [n] hashes ([n] from 1 to 6), then whitespace, then content. *)
Lemma heading_match_iff s n : heading_match s = Some n ↔ heading_line s n.
Proof.
  unfold heading_match. split.
  - destruct (exec heading_re s) as [ks|] eqn:E; [|done].
    apply exec_sound in E.
    destruct ks as [|k [|j [|i [|? ?]]]]; simpl in E; try tauto.
    simpl. intros [= ->].
    destruct E as (Hn1 & Hn2 & Hj1 & Hj2 & Hi1 & Hi2 & _).
    unfold greedy in *; simpl in *.
    destruct (span_pos is_dot (drop j (drop n s))) as (c & rest & Hd & Hc); [lia|].
    pose proof (span_le_length is_hash s).
    pose proof (span_le_length is_space (drop n s)).
    exists (take j (drop n s)), c, rest. repeat split.
    + rewrite <- Hd, take_drop.
      rewrite <- (take_drop n s) at 1. f_equal.
      rewrite (all_hash (take n s)) by (apply span_take; lia).
      rewrite length_take_le by lia. done.
    + done.
    + lia.
    + intros Hnil. apply (f_equal length) in Hnil.
      rewrite length_take_le in Hnil by lia. simpl in Hnil. lia.
    + by apply span_take.
    + done.
  - intros Hl. pose proof (span_hash_heading_line _ _ Hl) as Hspan.
    destruct Hl as (ws & c & rest & Hs & Hn & Hws & Hall & Hc).
    assert (matches heading_re s [n; length ws; 1]) as Hm.
    { simpl. unfold greedy; simpl. rewrite Hspan.
      assert (drop n s = ws ++ c :: rest) as ->.
      { rewrite Hs. apply drop_app_length'. by rewrite length_replicate. }
      rewrite span_app_all by done. rewrite drop_app_length. simpl. rewrite Hc.
      destruct ws; [done|]. simpl. lia. }
    destruct (exec_complete _ _ _ Hm) as [ks E]. rewrite E.
    apply exec_sound in E.
    destruct ks as [|k [|j ks]]; simpl in E; try tauto.
    destruct E as (Hk1 & Hk2 & Hj1 & Hj2 & _).
    unfold greedy in *; simpl in *.
    rewrite (hashes_then_space s k j) by lia. by rewrite Hspan.
Qed.

(** On a trimmed line the shorter pattern [/^#{1,6}\s+/] agrees with the
    heading pattern: what follows the whitespace is content, since the
    line cannot end in whitespace. *)
Lemma heading_prefix_match_trim t :
  heading_prefix_match (trim t) = true ↔ ∃ n, heading_line (trim t) n.
Proof.
  pose proof (trim_last t) as Hlast. generalize dependent (trim t). intros u Hlast.
  unfold heading_prefix_match. rewrite bool_decide_eq_true. split.
  - intros [ks E]. apply exec_sound in E.
    destruct ks as [|n [|j [|? ?]]]; simpl in E; try tauto.
    destruct E as (Hn1 & Hn2 & Hj1 & Hj2 & _).
    unfold greedy in *; simpl in *.
    pose proof (span_le_length is_hash u).
    pose proof (span_le_length is_space (drop n u)).
    set (m := span is_space (drop n u)) in *.
    assert (Forall (λ c, is_space c = true) (take m (drop n u))) as Hws
      by (by apply span_take).
    assert (take m (drop n u) ≠ []) as Hne.
    { intros Hnil. apply (f_equal length) in Hnil.
      rewrite length_take_le in Hnil by lia. simpl in Hnil. lia. }
    exists n. destruct (drop m (drop n u)) as [|c rest] eqn:Hd.
    + exfalso. apply last_is_Some in Hne as [w Hw].
      assert (is_space w = true) as Hsp.
      { apply last_Some_elem_of in Hw. rewrite Forall_forall in Hws.
        apply Hws. by apply list_elem_of_In. }
      rewrite (Hlast w) in Hsp; [done|].
      rewrite <- (take_drop n u), <- (take_drop m (drop n u)), Hd, app_nil_r.
      by rewrite last_app, Hw.
    + exists (take m (drop n u)), c, rest. repeat split.
      * rewrite <- Hd, take_drop.
        rewrite <- (take_drop n u) at 1. f_equal.
        rewrite (all_hash (take n u)) by (apply span_take; lia).
        rewrite length_take_le by lia. done.
      * done.
      * lia.
      * done.
      * done.
      * apply not_space_is_dot. apply (span_next is_space (drop n u)).
        fold m. replace m with (m + 0) by lia. by rewrite <- lookup_drop, Hd.
  - intros [n Hl]. pose proof (span_hash_heading_line _ _ Hl) as Hspan.
    destruct Hl as (ws & c & rest & Hs & Hn & Hws & Hall & Hc).
    apply (exec_complete _ _ [n; length ws]).
    simpl. unfold greedy; simpl. rewrite Hspan.
    assert (drop n u = ws ++ c :: rest) as ->.
    { rewrite Hs. apply drop_app_length'. by rewrite length_replicate. }
    rewrite span_app_all by done.
    destruct ws; [done|]. simpl. lia.
Qed.

(** ** Documents *)

Lemma line_Ok (doc : Doc) n :
  1 ≤ n ≤ lines doc → ∃ l, line doc n = Ok l ∧ number l = n.
Proof.
  intros [H1 H2]. destruct n as [|k]; [lia|]. unfold line, lines in *.
  destruct (lookup_lt_is_Some_2 doc k) as [t ->]; [lia|]. eauto.
Qed.

Lemma line_Ok_inv (doc : Doc) n l :
  line doc n = Ok l → 1 ≤ n ≤ lines doc ∧ number l = n ∧ doc !! (n - 1) = Some (text l).
Proof.
  unfold line, lines. destruct n as [|k]; [done|].
  destruct (doc !! k) as [t|] eqn:E; [|done]. intros [= <-]. simpl.
  apply lookup_lt_Some in E as Hlt. replace (k - 0) with k by lia.
  repeat split; [lia|lia|done].
Qed.

(** ** Paragraph extents *)

Lemma stops_paragraph_iff t : stops_paragraph t = true ↔ boundary_trimmed t.
Proof.
  unfold stops_paragraph, boundary_trimmed.
  rewrite orb_true_iff, heading_prefix_match_trim, <- trim_nil.
  assert (is_empty (trim t) = true ↔ trim t = []) as ->; [|done].
  by destruct (trim t).
Qed.

Lemma scan_up_spec (doc : Doc) i :
  i ≤ lines doc →
  ∃ r, scan_up doc i (S i) = Ok r
    ∧ 1 ≤ r ≤ S i
    ∧ (∀ j l, r ≤ j ≤ i → line doc j = Ok l → stops_paragraph (text l) = false)
    ∧ (r = 1 ∨ ∃ l, line doc (r - 1) = Ok l ∧ stops_paragraph (text l) = true).
Proof.
  induction i as [|i IH]; intros Hi.
  - exists 1. simpl. repeat split; [lia..| |by left]. intros; lia.
  - destruct (line_Ok doc (S i)) as (l & Hl & _); [lia|].
    cbn [scan_up]. rewrite Hl. result_step.
    destruct (stops_paragraph (text l)) eqn:Hstop.
    + exists (S (S i)). repeat split; [lia..| |].
      * intros; lia.
      * right. exists l. by replace (S (S i) - 1) with (S i) by lia.
    + destruct IH as (r & -> & Hr & Hin & Hout); [lia|].
      exists r. repeat split; [lia..| |done].
      intros j l' Hj Hl'. destruct (decide (j = S i)) as [->|].
      * congruence.
      * apply (Hin j); [lia|done].
Qed.

Lemma scan_down_spec (doc : Doc) todo t :
  todo + t = lines doc →
  ∃ r, scan_down doc todo (S t) t = Ok r
    ∧ t ≤ r ≤ lines doc
    ∧ (∀ j l, t < j ≤ r → line doc j = Ok l → stops_paragraph (text l) = false)
    ∧ (r = lines doc ∨ ∃ l, line doc (r + 1) = Ok l ∧ stops_paragraph (text l) = true).
Proof.
  revert t. induction todo as [|todo IH]; intros t Ht.
  - exists t. simpl. repeat split; [lia..| |left; lia]. intros; lia.
  - destruct (line_Ok doc (S t)) as (l & Hl & _); [lia|].
    cbn [scan_down]. rewrite Hl. result_step.
    destruct (stops_paragraph (text l)) eqn:Hstop.
    + exists t. repeat split; [lia..| |].
      * intros; lia.
      * right. exists l. by replace (t + 1) with (S t) by lia.
    + destruct (IH (S t)) as (r & -> & Hr & Hin & Hout); [lia|].
      exists r. repeat split; [lia..| |done].
      intros j l' Hj Hl'. destruct (decide (j = S t)) as [->|].
      * congruence.
      * apply (Hin j); [lia|done].
Qed.

(** What [getParagraphFocusInfo] returns, with the loops' own stop test. *)
Lemma getParagraphFocusInfo_extent (doc : Doc) n :
  1 ≤ n ≤ lines doc →
  ∃ f t,
    getParagraphFocusInfo n doc
      = Ok {| fromLine := f; toLine := t; type := paragraph; level := None |}
    ∧ paragraph_extent (λ t, stops_paragraph t = true) doc n f t.
Proof.
  intros Hn. unfold getParagraphFocusInfo.
  destruct (scan_up_spec doc (n - 1)) as (f & Hf & Hfb & Hfin & Hfout); [lia|].
  destruct (scan_down_spec doc (lines doc - n) n) as (t & Ht & Htb & Htin & Htout); [lia|].
  replace (S (n - 1)) with n in * by lia.
  replace (lines doc + 1 - (n + 1)) with (lines doc - n) by lia.
  replace (n + 1) with (S n) by lia.
  rewrite Hf. result_step. rewrite Ht. result_step.
  exists f, t. split; [done|].
  unfold paragraph_extent. repeat split; try lia.
  - intros j l Hj Hl. rewrite (Hfin j l); [done|lia|done].
  - intros j l Hj Hl. rewrite (Htin j l); [done|lia|done].
  - done.
  - done.
Qed.

Lemma paragraph_extent_ext (b1 b2 : jsstring → Prop) (doc : Doc) n f t :
  (∀ u, b1 u ↔ b2 u) → paragraph_extent b1 doc n f t → paragraph_extent b2 doc n f t.
Proof.
  intros Hb (H1 & H2 & H3 & H4 & Hup & Hdown & Hf & Ht).
  unfold paragraph_extent. repeat split; try done.
  - intros j l Hj Hl. rewrite <- Hb. by apply (Hup j).
  - intros j l Hj Hl. rewrite <- Hb. by apply (Hdown j).
  - destruct Hf as [|(l & Hl & Hbl)]; [by left|right]. exists l. by rewrite <- Hb.
  - destruct Ht as [|(l & Hl & Hbl)]; [by left|right]. exists l. by rewrite <- Hb.
Qed.

(** C3, as amended: for every document and every clicked line of it,
    [getParagraphFocusInfo] grows [fromLine] upward and [toLine] downward
    from the clicked line, each direction stopping just short of the first
    line that is blank after trimming or whose trimmed text matches the
    heading pattern, or at the document edge; and on the document
    ["# H1"; "line A"; "line B"; ""; "line C"] lines 2 and 3 give [2,3]
    and line 5 gives [5,5]. *)
Theorem C3_paragraph_extent_trimmed (doc : Doc) (n : nat) :
  1 ≤ n ≤ lines doc →
  (∃ f t,
     getParagraphFocusInfo n doc
       = Ok {| fromLine := f; toLine := t; type := paragraph; level := None |}
     ∧ paragraph_extent boundary_trimmed doc n f t)
  ∧ getParagraphFocusInfo 2 H1doc
      = Ok {| fromLine := 2; toLine := 3; type := paragraph; level := None |}
  ∧ getParagraphFocusInfo 3 H1doc
      = Ok {| fromLine := 2; toLine := 3; type := paragraph; level := None |}
  ∧ getParagraphFocusInfo 5 H1doc
      = Ok {| fromLine := 5; toLine := 5; type := paragraph; level := None |}.
Proof.
  intros Hn. split; [|by vm_compute].
  destruct (getParagraphFocusInfo_extent doc n Hn) as (f & t & Heq & Hext).
  exists f, t. split; [done|].
  eapply paragraph_extent_ext; [|exact Hext].
  intros u. apply stops_paragraph_iff.
Qed.

Lemma C3_paragraph_extent_trimmed_witness :
  1 ≤ 2 ≤ lines H1doc
  ∧ ∃ f t,
      getParagraphFocusInfo 2 H1doc
        = Ok {| fromLine := f; toLine := t; type := paragraph; level := None |}
      ∧ paragraph_extent boundary_trimmed H1doc 2 f t.
Proof.
  assert (1 ≤ 2 ≤ lines H1doc) as Hn by (vm_compute; lia).
  split; [exact Hn|].
  exact (proj1 (C3_paragraph_extent_trimmed H1doc 2 Hn)).
Defined.

(** C3, as stated, fails on an indented heading: in ["a"; " # b"] the
    second line is not blank and does not start with [#], so it does not
    match the heading pattern, yet a click on line 1 stops in front of it:
    the extent [1,1] is not the paragraph of line 1 when the pattern is
    tried on the untrimmed line. *)
Lemma C3_counterexample_indented_heading :
  getParagraphFocusInfo 1 indented_doc
    = Ok {| fromLine := 1; toLine := 1; type := paragraph; level := None |}
  ∧ ¬ paragraph_extent boundary_as_stated indented_doc 1 1 1.
Proof.
  split; [by vm_compute|].
  intros (_ & _ & _ & _ & _ & _ & _ & [H|(l & Hl & Hb)]); [by vm_compute in H|].
  vm_compute in Hl. injection Hl as <-. cbn [text] in Hb.
  destruct Hb as [Hb|[k Hb]].
  - apply trim_nil in Hb. by vm_compute in Hb.
  - apply heading_match_iff in Hb. by vm_compute in Hb.
Qed.

(** C10: for every document and every clicked line between 1 and the
    line count, the extent of [getParagraphFocusInfo] satisfies
    [1 <= fromLine <= clicked <= toLine <= line count]. *)
Theorem C10_paragraph_within_document (doc : Doc) (n : nat) :
  1 ≤ n ≤ lines doc →
  ∃ info,
    getParagraphFocusInfo n doc = Ok info
    ∧ 1 ≤ fromLine info ∧ fromLine info ≤ n
    ∧ n ≤ toLine info ∧ toLine info ≤ lines doc.
Proof.
  intros Hn.
  destruct (getParagraphFocusInfo_extent doc n Hn)
    as (f & t & Heq & H1 & H2 & H3 & H4 & _).
  eexists. split; [exact Heq|]. simpl. done.
Qed.

Lemma C10_paragraph_within_document_witness :
  1 ≤ 3 ≤ lines H1doc
  ∧ ∃ info,
      getParagraphFocusInfo 3 H1doc = Ok info
      ∧ 1 ≤ fromLine info ∧ fromLine info ≤ 3
      ∧ 3 ≤ toLine info ∧ toLine info ≤ lines H1doc.
Proof.
  assert (1 ≤ 3 ≤ lines H1doc) as Hn by (vm_compute; lia).
  split; [exact Hn|].
  exact (C10_paragraph_within_document H1doc 3 Hn).
Defined.

(** ** Heading extents *)

Lemma getHeadingFocusInfo_shape this headingLine lvl :
  fromLine (getHeadingFocusInfo this headingLine lvl) = headingLine
  ∧ type (getHeadingFocusInfo this headingLine lvl) = heading
  ∧ level (getHeadingFocusInfo this headingLine lvl) = Some lvl.
Proof.
  unfold getHeadingFocusInfo, single_line.
  destruct (metadata this) as [md|]; [|done].
  destruct (headings md) as [hs|]; [|done].
  by destruct (list_find _ hs) as [[idx h]|].
Qed.

Lemma getHeadingFocusInfo_unresolved this headingLine lvl :
  unresolved_heading this headingLine →
  getHeadingFocusInfo this headingLine lvl = single_line headingLine lvl.
Proof.
  unfold getHeadingFocusInfo.
  intros [->|[(md & -> & ->)|(md & hs & -> & -> & Hno)]]; [done..|].
  destruct (list_find _ hs) as [[idx h]|] eqn:E; [|done].
  apply list_find_Some in E as (Hlk & Heq & _).
  destruct (Hno h); [|done]. apply list_elem_of_lookup. eauto.
Qed.

Lemma next_boundary_found lvl before next after toLine :
  Forall (λ h, ¬ heading_level h ≤ lvl) before →
  heading_level next ≤ lvl →
  next_boundary lvl (before ++ next :: after) toLine = heading_start_line next.
Proof.
  intros Hb Hn. induction Hb as [|h before Hh _ IH]; simpl.
  - by rewrite decide_True.
  - by rewrite decide_False.
Qed.

Lemma next_boundary_none lvl rest toLine :
  Forall (λ h, ¬ heading_level h ≤ lvl) rest → next_boundary lvl rest toLine = toLine.
Proof.
  induction 1 as [|h rest Hh _ IH]; simpl; [done|]. by rewrite decide_False.
Qed.

(** With body inclusion on, a heading found in the metadata extends to the
    0-based start line of the next heading of level [<= lvl], that is, to
    the line in front of it, whenever that heading does not sit on the line
    right after the focused one. *)
Lemma getHeadingFocusInfo_next_heading this md hs idx h0 headingLine lvl before next after :
  metadata this = Some md → headings md = Some hs → includeBody this = true →
  list_find (λ h, heading_start_line h + 1 = headingLine) hs = Some (idx, h0) →
  drop (S idx) hs = before ++ next :: after →
  Forall (λ h, ¬ heading_level h ≤ lvl) before →
  heading_level next ≤ lvl →
  heading_start_line next ≠ headingLine →
  getHeadingFocusInfo this headingLine lvl
    = {| fromLine := headingLine; toLine := heading_start_line next;
         type := heading; level := Some lvl |}.
Proof.
  intros Hmd Hhs Hinc Hfind Hdrop Hbefore Hnext Hne.
  unfold getHeadingFocusInfo. rewrite Hmd, Hhs, Hfind, Hinc, Hdrop.
  rewrite next_boundary_found by done.
  unfold extend_to_last_section.
  destruct (sections md) as [ss|]; [|done].
  rewrite decide_False; [done|]. intros [? _]. done.
Qed.

(** With body inclusion on and no later heading of level [<= lvl], the
    extent runs to one past the end of the last section. *)
Lemma getHeadingFocusInfo_last_section this md hs ss sec e idx h0 headingLine lvl :
  metadata this = Some md → headings md = Some hs → includeBody this = true →
  list_find (λ h, heading_start_line h + 1 = headingLine) hs = Some (idx, h0) →
  Forall (λ h, ¬ heading_level h ≤ lvl) (drop (S idx) hs) →
  sections md = Some ss → list.last ss = Some sec → section_end_line sec = Some e →
  getHeadingFocusInfo this headingLine lvl
    = {| fromLine := headingLine; toLine := e + 1;
         type := heading; level := Some lvl |}.
Proof.
  intros Hmd Hhs Hinc Hfind Hrest Hss Hlast He.
  unfold getHeadingFocusInfo. rewrite Hmd, Hhs, Hfind, Hinc.
  rewrite next_boundary_none by done.
  unfold extend_to_last_section. rewrite Hss, Hlast, He.
  rewrite decide_True; [done|]. split; [done|].
  destruct ss; [done|simpl; lia].
Qed.

(** C1, where the code departs from it: in ["# A"; "# B"; "text"] the
    heading on line 1 is followed at once by a heading of the same level.
    The loop finds it and sets [toLine] to 1, which is also the value
    [toLine] started with, so the test for "no next heading found" fires
    and the extent runs to the end of the last section: it covers line 2,
    a heading of equal level. *)
Theorem C1_adjacent_heading_overrun :
  getFocusInfoForLine adjacent_manager 1 adjacent_doc
    = Ok (Some {| fromLine := 1; toLine := 3; type := heading; level := Some 1 |})
  ∧ ∃ next,
      headings adjacent_metadata ≫= (.!! 1) = Some next
      ∧ heading_level next ≤ 1
      ∧ 1 < heading_start_line next + 1 ≤ 3.
Proof.
  split; [by vm_compute|].
  eexists. split; [reflexivity|]. simpl. lia.
Qed.

(** C5, as amended: with headings on lines 1 (level 1) and 5 (level 2),
    body inclusion on and a last section ending at 0-based line 9,
    focusing line 1 yields [toLine = 10], since a level-2 heading does not
    end a level-1 section, and focusing the heading on line 5 yields
    [toLine = 10]; [toLine = 4] for line 1 is what a level-1 heading on
    line 5 gives. *)
Theorem C5_heading_examples (ss : list SectionCache) (sec : SectionCache) :
  list.last ss = Some sec → section_end_line sec = Some 9 →
  toLine (getHeadingFocusInfo
            {| metadata := Some (two_headings 2 ss); includeBody := true |} 1 1) = 10
  ∧ toLine (getHeadingFocusInfo
              {| metadata := Some (two_headings 2 ss); includeBody := true |} 5 2) = 10
  ∧ toLine (getHeadingFocusInfo
              {| metadata := Some (two_headings 1 ss); includeBody := true |} 1 1) = 4.
Proof.
  intros Hlast He. split; [|split].
  - erewrite (getHeadingFocusInfo_last_section _ (two_headings 2 ss));
      [ |reflexivity|reflexivity|reflexivity|reflexivity|
       |reflexivity|exact Hlast|exact He].
    + done.
    + simpl. constructor; [simpl; lia|constructor].
  - erewrite (getHeadingFocusInfo_last_section _ (two_headings 2 ss));
      [ |reflexivity|reflexivity|reflexivity|reflexivity|
       |reflexivity|exact Hlast|exact He].
    + done.
    + simpl. constructor.
  - erewrite (getHeadingFocusInfo_next_heading _ (two_headings 1 ss) _ _ _ _ _ []);
      [ |reflexivity|reflexivity|reflexivity|reflexivity|reflexivity
       |constructor|simpl; lia|simpl; lia].
    done.
Qed.

Lemma C5_heading_examples_witness :
  toLine (getHeadingFocusInfo
            {| metadata := Some (two_headings 2 ten_line_sections);
               includeBody := true |} 1 1) = 10
  ∧ toLine (getHeadingFocusInfo
              {| metadata := Some (two_headings 2 ten_line_sections);
                 includeBody := true |} 5 2) = 10
  ∧ toLine (getHeadingFocusInfo
              {| metadata := Some (two_headings 1 ten_line_sections);
                 includeBody := true |} 1 1) = 4.
Proof.
  exact (C5_heading_examples ten_line_sections {| section_end_line := Some 9 |}
           eq_refl eq_refl).
Defined.

(** C5, as stated, fails: with the level-2 heading on line 5 and the last
    section ending at 0-based line 9, focusing line 1 gives [toLine = 10],
    not 4. *)
Lemma C5_counterexample_nested_heading :
  getHeadingFocusInfo
    {| metadata := Some (two_headings 2 ten_line_sections); includeBody := true |} 1 1
    = {| fromLine := 1; toLine := 10; type := heading; level := Some 1 |}
  ∧ toLine (getHeadingFocusInfo
              {| metadata := Some (two_headings 2 ten_line_sections);
                 includeBody := true |} 1 1) ≠ 4.
Proof. split; [by vm_compute|]. by vm_compute. Qed.

(** C6: when no metadata heading has the adjusted start line
    [headingLine], or there is no heading metadata at all,
    [getHeadingFocusInfo] returns the single-line extent
    [fromLine = toLine = headingLine]; and a click on such a line, when it
    matches the heading pattern, returns that extent without raising. *)
Theorem C6_unresolved_heading_single_line this headingLine lvl :
  unresolved_heading this headingLine →
  getHeadingFocusInfo this headingLine lvl
    = {| fromLine := headingLine; toLine := headingLine;
         type := heading; level := Some lvl |}
  ∧ ∀ (doc : Doc) l,
      line doc headingLine = Ok l → heading_line (text l) lvl →
      getFocusInfoForLine this headingLine doc
        = Ok (Some {| fromLine := headingLine; toLine := headingLine;
                      type := heading; level := Some lvl |}).
Proof.
  intros Hun. pose proof (getHeadingFocusInfo_unresolved _ _ lvl Hun) as Heq.
  split; [exact Heq|].
  intros doc l Hl Hpat. unfold getFocusInfoForLine.
  rewrite Hl. result_step.
  apply heading_match_iff in Hpat. rewrite Hpat, Heq. done.
Qed.

Lemma C6_unresolved_heading_single_line_witness :
  unresolved_heading {| metadata := Some (two_headings 2 []); includeBody := true |} 3
  ∧ getHeadingFocusInfo {| metadata := Some (two_headings 2 []); includeBody := true |} 3 2
    = {| fromLine := 3; toLine := 3; type := heading; level := Some 2 |}.
Proof.
  assert (unresolved_heading
            {| metadata := Some (two_headings 2 []); includeBody := true |} 3) as Hun.
  { right; right. eexists _, _. split; [reflexivity|]. split; [reflexivity|].
    intros h Hh. apply list_elem_of_In in Hh. simpl in Hh.
    destruct Hh as [<-|[<-|[]]]; simpl; lia. }
  split; [exact Hun|].
  exact (proj1 (C6_unresolved_heading_single_line _ 3 2 Hun)).
Defined.

(** ** Parent headings *)

Lemma scan_back_skip this n skipped rest :
  Forall (λ h, ¬ heading_start_line h + 1 < n) skipped →
  scan_back this n (skipped ++ rest) = scan_back this n rest.
Proof.
  induction 1 as [|h skipped Hh _ IH]; simpl; [done|]. by rewrite decide_False.
Qed.

Lemma findParentHeading_nearest this md hs n h :
  metadata this = Some md → headings md = Some hs →
  nearest_preceding_heading hs n h →
  findParentHeading this n
    = Some (getHeadingFocusInfo this (heading_start_line h + 1) (heading_level h)).
Proof.
  intros Hmd Hhs (before & after & -> & Hh & Hafter).
  unfold findParentHeading. rewrite Hmd. simpl. rewrite Hhs.
  rewrite reverse_app, reverse_cons, <- app_assoc.
  rewrite scan_back_skip by (by apply Forall_reverse).
  simpl. by rewrite decide_True.
Qed.

Lemma findParentHeading_none this md n :
  metadata this = Some md → no_preceding_heading md n → findParentHeading this n = None.
Proof.
  intros Hmd Hno. unfold findParentHeading, no_preceding_heading in *.
  rewrite Hmd. simpl. destruct (headings md) as [hs|]; [|done].
  rewrite <- (app_nil_r (reverse hs)).
  rewrite scan_back_skip by (by apply Forall_reverse). done.
Qed.

Lemma findParentHeading_type this n info :
  findParentHeading this n = Some info → type info = heading.
Proof.
  unfold findParentHeading. destruct (metadata this ≫= headings) as [hs|]; [|done].
  induction (reverse hs) as [|h bs IH]; simpl; [done|].
  case_decide; [|done]. intros [= <-]. apply getHeadingFocusInfo_shape.
Qed.

(** How [getFocusInfoForLine] dispatches: a line that matches the heading
    pattern goes to [getHeadingFocusInfo] with the number of its leading
    [#] as level; any other line, when metadata is present, gets what
    [getHeadingFocusInfo] returns for the nearest preceding heading if
    body inclusion is on, and its own paragraph extent if body inclusion
    is off or no heading precedes it. *)
Lemma getFocusInfoForLine_cases this (doc : Doc) n l :
  line doc n = Ok l →
  (∀ lvl, heading_line (text l) lvl →
     getFocusInfoForLine this n doc = Ok (Some (getHeadingFocusInfo this n lvl))
     ∧ type (getHeadingFocusInfo this n lvl) = heading
     ∧ level (getHeadingFocusInfo this n lvl) = Some lvl
     ∧ lvl = span is_hash (text l))
  ∧ ((∀ lvl, ¬ heading_line (text l) lvl) →
     ∀ md, metadata this = Some md →
       (∀ hs h, includeBody this = true → headings md = Some hs →
          nearest_preceding_heading hs n h →
          getFocusInfoForLine this n doc
            = Ok (Some (getHeadingFocusInfo this (heading_start_line h + 1)
                          (heading_level h))))
       ∧ (includeBody this = false ∨ no_preceding_heading md n →
          getFocusInfoForLine this n doc = Some <$> getParagraphFocusInfo n doc)).
Proof.
  intros Hl. unfold getFocusInfoForLine. rewrite Hl. result_step.
  split.
  - intros lvl Hpat. pose proof (span_hash_heading_line _ _ Hpat) as Hspan.
    apply heading_match_iff in Hpat. rewrite Hpat.
    destruct (getHeadingFocusInfo_shape this n lvl) as (_ & Hty & Hlv).
    done.
  - intros Hno md Hmd.
    destruct (heading_match (text l)) as [lvl|] eqn:Hm.
    { apply heading_match_iff in Hm. by destruct (Hno lvl). }
    rewrite Hmd. split.
    + intros hs h Hinc Hhs Hnear.
      by rewrite (findParentHeading_nearest this md hs n h), Hinc.
    + intros [Hinc|Hnone].
      * rewrite Hinc. by destruct (findParentHeading this n).
      * by rewrite (findParentHeading_none this md n).
Qed.

Example getFocusInfoForLine_cases_adjacent :
  getFocusInfoForLine adjacent_manager 2 adjacent_doc
    = Ok (Some (getHeadingFocusInfo adjacent_manager 2 1))
  ∧ getFocusInfoForLine adjacent_manager 3 adjacent_doc
    = Ok (Some (getHeadingFocusInfo adjacent_manager 2 1)).
Proof.
  split.
  - refine (proj1 (proj1 (getFocusInfoForLine_cases adjacent_manager adjacent_doc 2
                            {| number := 2; from := 4; text := js "# B" |} eq_refl) 1 _)).
    apply heading_match_iff. reflexivity.
  - refine (proj1 (proj2 (getFocusInfoForLine_cases adjacent_manager adjacent_doc 3
                            {| number := 3; from := 8; text := js "text" |} eq_refl)
                     _ adjacent_metadata eq_refl)
              _ {| heading_level := 1; heading_start_line := 1 |} eq_refl eq_refl _).
    + intros lvl Hpat. apply heading_match_iff in Hpat. discriminate Hpat.
    + exists [ {| heading_level := 1; heading_start_line := 0 |} ], [].
      split; [reflexivity|]. split; [simpl; lia|constructor].
Defined.

(** C2, where the code departs from it: in ["# A"; "  # B"; "text"] the
    heading on line 2 is indented, so the pattern does not take the line
    for a heading, while the metadata lists it as a level-1 heading. A
    click on line 2 therefore takes the parent path. The nearest preceding
    heading is the one on line 1, and its section ends in front of line 2;
    but [getHeadingFocusInfo] overruns as in C1, and the click returns
    [1,3]: not the full extent of that heading, since it covers line 2, a
    heading of equal level. *)
Theorem C2_parent_extent_overrun :
  heading_match (js "  # B") = None
  ∧ nearest_preceding_heading
      [ {| heading_level := 1; heading_start_line := 0 |};
        {| heading_level := 1; heading_start_line := 1 |} ] 2
      {| heading_level := 1; heading_start_line := 0 |}
  ∧ getFocusInfoForLine adjacent_manager 2 indented_heading_doc
    = Ok (Some {| fromLine := 1; toLine := 3; type := heading; level := Some 1 |})
  ∧ ∃ next,
      headings adjacent_metadata ≫= (.!! 1) = Some next
      ∧ heading_level next ≤ 1
      ∧ 1 < heading_start_line next + 1 ≤ 3.
Proof.
  split; [reflexivity|]. split; [|split; [by vm_compute|]].
  - exists [], [ {| heading_level := 1; heading_start_line := 1 |} ].
    split; [reflexivity|]. split; [simpl; lia|].
    constructor; [simpl; lia|constructor].
  - eexists. split; [reflexivity|]. simpl. lia.
Qed.

(** C9: for every document and every line number between 1 and the line
    count, [getFocusInfoForLine] returns a non-null result, and its
    variant is [heading] or [paragraph]. *)
Theorem C9_getFocusInfoForLine_total this (doc : Doc) n :
  1 ≤ n ≤ lines doc →
  ∃ info,
    getFocusInfoForLine this n doc = Ok (Some info)
    ∧ (type info = heading ∨ type info = paragraph).
Proof.
  intros Hn. destruct (line_Ok doc n Hn) as (l & Hl & _).
  destruct (getParagraphFocusInfo_extent doc n Hn) as (f & t & Hpar & _).
  unfold getFocusInfoForLine. rewrite Hl, Hpar. result_step.
  destruct (heading_match (text l)) as [lvl|].
  { eexists. split; [reflexivity|]. left. apply getHeadingFocusInfo_shape. }
  destruct (metadata this) as [md|]; [|eexists; split; [reflexivity|by right]].
  destruct (findParentHeading this n) as [info|] eqn:Hparent;
    [|eexists; split; [reflexivity|by right]].
  destruct (includeBody this); [|eexists; split; [reflexivity|by right]].
  exists info. split; [reflexivity|]. left. by apply (findParentHeading_type this n).
Qed.

Lemma C9_getFocusInfoForLine_total_witness :
  1 ≤ 3 ≤ lines adjacent_doc
  ∧ ∃ info,
      getFocusInfoForLine adjacent_manager 3 adjacent_doc = Ok (Some info)
      ∧ (type info = heading ∨ type info = paragraph).
Proof.
  assert (1 ≤ 3 ≤ lines adjacent_doc) as Hn by (vm_compute; lia).
  split; [exact Hn|].
  exact (C9_getFocusInfoForLine_total adjacent_manager adjacent_doc 3 Hn).
Defined.

(** ** The focus-state field *)

Lemma focusState_loop_others others rest value :
  Forall (λ e, e = otherEffect) others →
  focusState_loop (others ++ rest) value = focusState_loop rest value.
Proof. induction 1 as [|e others -> _ IH]; simpl; done. Qed.

Lemma focusState_loop_unchanged effs value :
  Forall (λ e, is_focus_effect e = false) effs → focusState_loop effs value = value.
Proof. induction 1 as [|[| |] effs He _ IH]; simpl; done. Qed.

(** The first set-focus or clear-focus effect in the transaction's effect
    list decides: if it is a set-focus effect the state becomes its
    payload, if it is a clear-focus effect the state becomes absent, and a
    transaction that carries neither leaves the state as it was. *)
Lemma focusStateField_update_first_effect (value : option EditModeFocusInfo) (tr : Transaction) :
  (∀ others v rest,
     effects tr = others ++ setFocusEffect v :: rest →
     Forall (λ e, e = otherEffect) others →
     focusStateField_update value tr = v)
  ∧ (∀ others rest,
       effects tr = others ++ clearFocusEffect :: rest →
       Forall (λ e, e = otherEffect) others →
       focusStateField_update value tr = None)
  ∧ (Forall (λ e, is_focus_effect e = false) (effects tr) →
     focusStateField_update value tr = value).
Proof.
  unfold focusStateField_update. repeat split.
  - intros others v rest -> Hothers. by rewrite focusState_loop_others.
  - intros others rest -> Hothers. by rewrite focusState_loop_others.
  - apply focusState_loop_unchanged.
Qed.

Example focusStateField_update_first_effect_samples :
  focusStateField_update None other_then_set = Some sample_focus
  ∧ focusStateField_update (Some sample_focus) other_then_clear = None
  ∧ focusStateField_update (Some sample_focus) only_others = Some sample_focus.
Proof.
  split; [|split].
  - refine (proj1 (focusStateField_update_first_effect None other_then_set)
              [otherEffect] (Some sample_focus) [] eq_refl _).
    constructor; [reflexivity|constructor].
  - refine (proj1 (proj2 (focusStateField_update_first_effect (Some sample_focus)
                            other_then_clear))
              [otherEffect] [otherEffect] eq_refl _).
    constructor; [reflexivity|constructor].
  - refine (proj2 (proj2 (focusStateField_update_first_effect (Some sample_focus)
                            only_others)) _).
    constructor; [reflexivity|]. constructor; [reflexivity|constructor].
Defined.

(** On a transaction that carries both effects the first one wins: with
    the clear-focus effect first the state becomes absent, with the
    set-focus effect first it becomes the payload. Neither [applyFocus]
    nor [clearFocus] dispatches such a transaction. *)
Example focusStateField_update_both_effects :
  (setFocusEffect (Some sample_focus) ∈ effects clear_then_set
   ∧ focusStateField_update None clear_then_set = None
   ∧ focusStateField_update None clear_then_set ≠ Some sample_focus)
  ∧ (clearFocusEffect ∈ effects set_then_clear
     ∧ focusStateField_update None set_then_clear = Some sample_focus
     ∧ focusStateField_update None set_then_clear ≠ None).
Proof.
  split.
  - split; [|by vm_compute]. simpl. apply list_elem_of_In. simpl. auto.
  - split; [|by vm_compute]. simpl. apply list_elem_of_In. simpl. auto.
Qed.

(** ** Decorations *)

Lemma sum_list_snoc (l : list nat) x : sum_list (l ++ [x]) = sum_list l + x.
Proof. induction l as [|a l IH]; simpl; lia. Qed.

Lemma line_start_S (doc : Doc) k t :
  doc !! k = Some t → line_start doc (S k) = line_start doc k + S (length t).
Proof.
  intros Hk. unfold line_start. rewrite (take_S_r doc k t Hk), fmap_app.
  simpl. by rewrite sum_list_snoc.
Qed.

(** Line starts grow strictly: no two lines share an offset. *)
Lemma line_start_lt (doc : Doc) k1 k2 :
  k1 < k2 → k2 ≤ length doc → line_start doc k1 < line_start doc k2.
Proof.
  induction k2 as [|k2 IH]; [lia|]. intros Hlt Hlen.
  destruct (lookup_lt_is_Some_2 doc k2) as [t Ht]; [lia|].
  rewrite (line_start_S doc k2 t Ht).
  destruct (decide (k1 = k2)) as [->|]; [lia|].
  assert (line_start doc k1 < line_start doc k2) by (apply IH; lia). lia.
Qed.

Lemma line_start_inj (doc : Doc) k1 k2 :
  k1 < length doc → k2 < length doc → line_start doc k1 = line_start doc k2 → k1 = k2.
Proof.
  intros H1 H2 Heq.
  destruct (Nat.lt_trichotomy k1 k2) as [Hlt|[->|Hlt]]; [|done|].
  - pose proof (line_start_lt doc k1 k2 Hlt). lia.
  - pose proof (line_start_lt doc k2 k1 Hlt). lia.
Qed.

Lemma line_from (doc : Doc) i l :
  line doc i = Ok l → 1 ≤ i ≤ lines doc ∧ from l = line_start doc (i - 1).
Proof.
  intros Hl. destruct (line_Ok_inv doc i l Hl) as (Hi & _ & _).
  split; [done|]. unfold line in Hl. destruct i as [|k]; [done|].
  destruct (doc !! k); [|done]. injection Hl as <-. simpl.
  by replace (k - 0) with k by lia.
Qed.

Lemma build_loop_spec (doc : Doc) f todo i builder :
  1 ≤ i → i + todo = lines doc + 1 →
  build_loop doc f todo i builder
    = Ok (builder ++ ((λ j, (line_start doc (j - 1), mark_for f j)) <$> seq i todo)).
Proof.
  revert i builder. induction todo as [|todo IH]; intros i builder Hi Hsum; simpl.
  - by rewrite app_nil_r.
  - destruct (line_Ok doc i) as (l & Hl & _); [lia|].
    rewrite Hl. result_step.
    destruct (line_from doc i l Hl) as (_ & ->).
    rewrite IH by lia. by rewrite <- app_assoc.
Qed.

Lemma buildDecorations_Some (doc : Doc) f :
  buildDecorations doc (Some f) = Ok (expected_decorations doc f).
Proof. unfold buildDecorations. by rewrite build_loop_spec by lia. Qed.

Lemma buildDecorations_total (doc : Doc) focusInfo :
  ∃ ds, buildDecorations doc focusInfo = Ok ds.
Proof.
  destruct focusInfo as [f|]; [|by exists []].
  exists (expected_decorations doc f). apply buildDecorations_Some.
Qed.

(** The marker found at the start of line [i] is the one of line [i]. *)
Lemma expected_decorations_at (doc : Doc) f i l m :
  line doc i = Ok l →
  (from l, m) ∈ expected_decorations doc f ↔ m = mark_for f i.
Proof.
  intros Hl. destruct (line_from doc i l Hl) as (Hi & ->).
  unfold expected_decorations, lines in *. rewrite list_elem_of_fmap. split.
  - intros (j & [= Hpos ->] & Hj%elem_of_seq).
    apply line_start_inj in Hpos; [|lia..].
    by replace j with i by lia.
  - intros ->. exists i. split; [done|]. apply elem_of_seq. lia.
Qed.

Lemma decorations_loop_fixed effs (doc : Doc) focusInfo ds :
  buildDecorations doc focusInfo = Ok ds →
  decorations_loop effs doc focusInfo ds = Ok ds.
Proof.
  intros Hb. induction effs as [|e effs IH]; simpl; [done|].
  destruct (is_focus_effect e); [|done]. by rewrite Hb.
Qed.

Lemma decorations_loop_rebuilt effs (doc : Doc) focusInfo d ds :
  buildDecorations doc focusInfo = Ok ds →
  Exists (λ e, is_focus_effect e = true) effs →
  decorations_loop effs doc focusInfo d = Ok ds.
Proof.
  intros Hb Hex. revert d. induction Hex as [e effs He|e effs _ IH]; intros d; simpl.
  - rewrite He, Hb. result_step. by apply decorations_loop_fixed.
  - destruct (is_focus_effect e); [|done].
    rewrite Hb. result_step. by apply decorations_loop_fixed.
Qed.

Lemma decorations_loop_kept effs (doc : Doc) focusInfo d :
  Forall (λ e, is_focus_effect e = false) effs →
  decorations_loop effs doc focusInfo d = Ok d.
Proof. induction 1 as [|e effs He _ IH]; simpl; [done|]. by rewrite He. Qed.

(** C4: the decoration set built from an active focus [fromLine, toLine]
    has one marker per document line, the focused marker on every line
    inside the range and the dimmed marker on every line outside it, and
    no line carries both; it is the set the decorations field holds after
    every transaction with a set-focus or clear-focus effect; and built
    from an absent focus state it is empty, so that, as long as remapping
    keeps an empty set empty, an absent focus state goes with an empty
    decoration set. *)
Theorem C4_decorations_follow_focus :
  (∀ doc : Doc, buildDecorations doc None = Ok [])
  ∧ (∀ (doc : Doc) f, ∃ ds,
       buildDecorations doc (Some f) = Ok ds
       ∧ length ds = lines doc
       ∧ ∀ i l, line doc i = Ok l →
           (fromLine f ≤ i ∧ i ≤ toLine f →
              (from l, focusedLineMark) ∈ ds ∧ (from l, dimmedLineMark) ∉ ds)
           ∧ (¬ (fromLine f ≤ i ∧ i ≤ toLine f) →
                (from l, dimmedLineMark) ∈ ds ∧ (from l, focusedLineMark) ∉ ds))
  ∧ (∀ st tr,
       Exists (λ e, is_focus_effect e = true) (effects tr) →
       ∃ st', applyTransaction st tr = Ok st'
         ∧ state_focus st' = focusStateField_update (state_focus st) tr
         ∧ buildDecorations (state_doc st') (state_focus st') = Ok (state_decorations st'))
  ∧ (∀ st tr,
       mapDecorations tr [] = [] →
       (state_focus st = None → state_decorations st = []) →
       ∃ st', applyTransaction st tr = Ok st'
         ∧ (state_focus st' = None → state_decorations st' = [])).
Proof.
  split; [done|]. split; [|split].
  - intros doc f. exists (expected_decorations doc f).
    split; [apply buildDecorations_Some|]. split.
    { unfold expected_decorations. by rewrite length_fmap, length_seq. }
    intros i l Hl. rewrite !(expected_decorations_at doc f i l) by done.
    unfold mark_for. split; intros Hin.
    + by rewrite decide_True.
    + by rewrite decide_False.
  - intros st tr Hex. unfold applyTransaction, focusDecorationsField_update.
    destruct (buildDecorations_total (newDoc tr)
                (focusStateField_update (state_focus st) tr)) as [ds Hds].
    rewrite (decorations_loop_rebuilt _ _ _ _ ds Hds Hex).
    eexists. split; [reflexivity|]. done.
  - intros st tr Hmap Hinv. unfold applyTransaction, focusDecorationsField_update.
    destruct (decide (Exists (λ e, is_focus_effect e = true) (effects tr))) as [Hex|Hno].
    + destruct (buildDecorations_total (newDoc tr)
                  (focusStateField_update (state_focus st) tr)) as [ds Hds].
      rewrite (decorations_loop_rebuilt _ _ _ _ ds Hds Hex).
      eexists. split; [reflexivity|]. simpl. intros Hnone.
      rewrite Hnone in Hds. simpl in Hds. by injection Hds as <-.
    + assert (Forall (λ e, is_focus_effect e = false) (effects tr)) as Hall.
      { apply Forall_forall. intros e He.
        destruct (is_focus_effect e) eqn:E; [|done].
        destruct Hno. apply Exists_exists. eauto. }
      rewrite (decorations_loop_kept _ _ _ _ Hall).
      eexists. split; [reflexivity|]. simpl.
      unfold focusStateField_update. rewrite (focusState_loop_unchanged _ _ Hall).
      intros Hnone. by rewrite (Hinv Hnone).
Qed.

Lemma C4_decorations_follow_focus_witness :
  ∃ ds,
    buildDecorations H1doc (Some sample_focus) = Ok ds
    ∧ (5, focusedLineMark) ∈ ds ∧ ((5, dimmedLineMark) ∉ ds)
    ∧ (0, dimmedLineMark) ∈ ds ∧ ((0, focusedLineMark) ∉ ds).
Proof.
  destruct (proj1 (proj2 C4_decorations_follow_focus) H1doc sample_focus)
    as (ds & Hds & _ & Hlines).
  exists ds. split; [exact Hds|].
  destruct (Hlines 2 {| number := 2; from := 5; text := js "line A" |} eq_refl)
    as [Hin _].
  destruct (Hlines 1 {| number := 1; from := 0; text := js "# H1" |} eq_refl)
    as [_ Hout].
  destruct Hin as [H1 H2]; [simpl; lia|].
  destruct Hout as [H3 H4]; [simpl; lia|].
  repeat split; assumption.
Defined.

(** ** The pointer handlers *)

(** C8: a pointer-up whose time stamp exceeds that of the preceding
    pointer-down by more than [focusSensitivity] returns before any focus
    or clear action: whatever the target, the plugin and the editor are
    left as the pointer-down left them, so neither the preview manager nor
    the editor's focus state has changed. *)
Theorem C8_slow_pointerup_ignored {FocusManager : Type}
    (previewPointerUp :
       FocusPluginSettings → PointerEvent → Workspace → FocusManager → FocusManager)
    (w : World FocusManager) (down up : PointerEvent) :
  PrimFloat.ltb (focusSensitivity (settings (plugin w)))
    (PrimFloat.sub (timeStamp up) (timeStamp down)) = true →
  pointerup previewPointerUp (pointerdown w down) up = Ok (pointerdown w down)
  ∧ workspace (pointerdown w down) = workspace w
  ∧ focusManager (plugin (pointerdown w down)) = focusManager (plugin w)
  ∧ editModeFocusManager (plugin (pointerdown w down)) = editModeFocusManager (plugin w).
Proof.
  intros Hslow. split; [|done].
  unfold pointerup, pointerdown. cbn [plugin settings lastClick].
  destruct (isEnabled (settings (plugin w))); [|done].
  cbn [negb]. by rewrite Hslow.
Qed.

Lemma C8_slow_pointerup_ignored_witness :
  pointerup (λ _ _ _ fm, fm) (pointerdown sample_world (pointer_at 1000)) (pointer_at 3000)
    = Ok (pointerdown sample_world (pointer_at 1000)).
Proof.
  exact (proj1 (C8_slow_pointerup_ignored (λ _ _ _ fm, fm) sample_world
                  (pointer_at 1000) (pointer_at 3000) eq_refl)).
Defined.

(** ** Further properties *)

(** X1: the pattern [/^(#{1,6})\s+(.+)/] of [getFocusInfoForLine] matches
    a line, with a first group of length [n], exactly when the line is
    [n] hashes ([n] from 1 to 6), then whitespace, then at least one
    character that does not end a line; and on trimmed text the pattern
    [/^#{1,6}\s+/] of [getParagraphFocusInfo] matches the same lines. *)
Theorem X1_heading_patterns (s : jsstring) (n : nat) :
  (heading_match s = Some n ↔ heading_line s n)
  ∧ (heading_prefix_match (trim s) = true ↔ ∃ k, heading_line (trim s) k).
Proof. split; [apply heading_match_iff|apply heading_prefix_match_trim]. Qed.

(** X2: with body inclusion on, for a heading found in the metadata, the
    extent starts on the heading's line; it ends on the line in front of
    the next heading of equal or shallower level, whenever that heading is
    not on the line right after the focused one; and without such a
    heading it ends one past the end line of the last section. *)
Theorem X2_heading_extent this md hs idx h0 headingLine lvl :
  metadata this = Some md → headings md = Some hs → includeBody this = true →
  list_find (λ h, heading_start_line h + 1 = headingLine) hs = Some (idx, h0) →
  fromLine (getHeadingFocusInfo this headingLine lvl) = headingLine
  ∧ (∀ before next after,
       drop (S idx) hs = before ++ next :: after →
       Forall (λ h, ¬ heading_level h ≤ lvl) before →
       heading_level next ≤ lvl →
       heading_start_line next ≠ headingLine →
       toLine (getHeadingFocusInfo this headingLine lvl) = heading_start_line next
       ∧ toLine (getHeadingFocusInfo this headingLine lvl) < heading_start_line next + 1)
  ∧ (Forall (λ h, ¬ heading_level h ≤ lvl) (drop (S idx) hs) →
     ∀ ss sec e,
       sections md = Some ss → list.last ss = Some sec → section_end_line sec = Some e →
       toLine (getHeadingFocusInfo this headingLine lvl) = e + 1).
Proof.
  intros Hmd Hhs Hinc Hfind. split; [apply getHeadingFocusInfo_shape|]. split.
  - intros before next after Hdrop Hbefore Hnext Hne.
    rewrite (getHeadingFocusInfo_next_heading this md hs idx h0 headingLine lvl
               before next after) by done.
    simpl. lia.
  - intros Hrest ss sec e Hss Hlast He.
    by rewrite (getHeadingFocusInfo_last_section this md hs ss sec e idx h0
                  headingLine lvl).
Qed.

Lemma X2_heading_extent_witness :
  toLine (getHeadingFocusInfo
            {| metadata := Some (two_headings 1 ten_line_sections);
               includeBody := true |} 1 1) = 4
  ∧ toLine (getHeadingFocusInfo
              {| metadata := Some (two_headings 1 ten_line_sections);
                 includeBody := true |} 5 1) = 10.
Proof.
  split.
  - refine (proj1 (proj1 (proj2 (X2_heading_extent
              {| metadata := Some (two_headings 1 ten_line_sections);
                 includeBody := true |}
              (two_headings 1 ten_line_sections) _ 0
              {| heading_level := 1; heading_start_line := 0 |} 1 1
              eq_refl eq_refl eq_refl eq_refl))
              [] {| heading_level := 1; heading_start_line := 4 |} [] eq_refl _ _ _)).
    + constructor.
    + simpl. lia.
    + simpl. lia.
  - refine (proj2 (proj2 (X2_heading_extent
              {| metadata := Some (two_headings 1 ten_line_sections);
                 includeBody := true |}
              (two_headings 1 ten_line_sections) _ 1
              {| heading_level := 1; heading_start_line := 4 |} 5 1
              eq_refl eq_refl eq_refl eq_refl)) _
              ten_line_sections {| section_end_line := Some 9 |} 9
              eq_refl eq_refl eq_refl).
    constructor.
Defined.

(** ** Heading extents on ordered metadata *)

Lemma next_boundary_cases lvl rest toLine :
  next_boundary lvl rest toLine = toLine
  ∨ ∃ k h, rest !! k = Some h ∧ next_boundary lvl rest toLine = heading_start_line h.
Proof.
  induction rest as [|h rest IH]; simpl; [by left|].
  case_decide.
  - right. by exists 0, h.
  - destruct IH as [->|(k & h' & Hk & ->)]; [by left|].
    right. by exists (S k), h'.
Qed.

(** X3: on metadata whose headings are listed in document order and whose
    last section does not end before the focused heading, the extent of
    [getHeadingFocusInfo] is never empty: [fromLine <= toLine], whatever
    the level and the body-inclusion flag. *)
Theorem X3_heading_extent_not_empty this headingLine lvl :
  (∀ md hs, metadata this = Some md → headings md = Some hs →
     headings_ascending hs ∧ last_section_reaches md headingLine) →
  fromLine (getHeadingFocusInfo this headingLine lvl)
    ≤ toLine (getHeadingFocusInfo this headingLine lvl).
Proof.
  intros Hord. unfold getHeadingFocusInfo.
  destruct (metadata this) as [md|]; [|done].
  destruct (headings md) as [hs|] eqn:Hhs; [|done].
  destruct (Hord md hs eq_refl Hhs) as [Hasc Hsec].
  destruct (list_find _ hs) as [[idx h0]|] eqn:Hfind; [|done].
  destruct (includeBody this); [|done]. cbn [fromLine toLine].
  apply list_find_Some in Hfind as (Hidx & Hline & _).
  assert (headingLine ≤ next_boundary lvl (drop (S idx) hs) headingLine) as Hnext.
  { destruct (next_boundary_cases lvl (drop (S idx) hs) headingLine)
      as [->|(k & h & Hk & ->)]; [done|].
    rewrite lookup_drop in Hk.
    pose proof (Hasc idx (S idx + k) h0 h ltac:(lia) Hidx Hk). lia. }
  unfold extend_to_last_section.
  destruct (sections md) as [ss|] eqn:Hss; [|done].
  case_decide; [|done].
  destruct (list.last ss) as [sec|] eqn:Hlast; [|done].
  destruct (section_end_line sec) as [e|] eqn:He; [|done].
  by apply (Hsec ss sec e).
Qed.

Lemma X3_heading_extent_not_empty_witness :
  fromLine (getHeadingFocusInfo adjacent_manager 2 1)
    ≤ toLine (getHeadingFocusInfo adjacent_manager 2 1).
Proof.
  apply (X3_heading_extent_not_empty adjacent_manager 2 1).
  intros md hs [= <-] [= <-]. split.
  - intros i j hi hj Hij Hi Hj.
    destruct i as [|[|i]], j as [|[|j]]; simpl in Hi, Hj; try lia; try done.
    injection Hi as <-. injection Hj as <-. simpl. lia.
  - intros ss sec e [= <-] [= <-] [= <-]. lia.
Defined.

(** ** Body inclusion switched off *)

Lemma getHeadingFocusInfo_block this headingLine lvl :
  includeBody this = false →
  getHeadingFocusInfo this headingLine lvl = single_line headingLine lvl.
Proof.
  intros Hinc. unfold getHeadingFocusInfo, single_line.
  destruct (metadata this) as [md|]; [|done].
  destruct (headings md) as [hs|]; [|done].
  destruct (list_find _ hs) as [[idx h]|]; [|done]. by rewrite Hinc.
Qed.

(** X4: with body inclusion off the metadata plays no part in
    [getFocusInfoForLine]: whatever it holds, a heading line gets the
    single-line extent with its level and any other line its paragraph
    extent, as for a manager without metadata. *)
Theorem X4_block_scope_ignores_metadata this (doc : Doc) n :
  includeBody this = false →
  getFocusInfoForLine this n doc = getFocusInfoForLine block_manager n doc
  ∧ ∀ l, line doc n = Ok l →
      (∀ lvl, heading_line (text l) lvl →
         getFocusInfoForLine this n doc
           = Ok (Some {| fromLine := n; toLine := n; type := heading; level := Some lvl |}))
      ∧ ((∀ lvl, ¬ heading_line (text l) lvl) →
         getFocusInfoForLine this n doc = Some <$> getParagraphFocusInfo n doc).
Proof.
  intros Hinc.
  assert (∀ l, line doc n = Ok l →
            getFocusInfoForLine this n doc
              = match heading_match (text l) with
                | Some lvl => Ok (Some (single_line n lvl))
                | None => Some <$> getParagraphFocusInfo n doc
                end) as Hshape.
  { intros l Hl. unfold getFocusInfoForLine. rewrite Hl. result_step.
    destruct (heading_match (text l)) as [lvl|].
    - by rewrite getHeadingFocusInfo_block.
    - destruct (metadata this); [|done].
      rewrite Hinc. by destruct (findParentHeading this n). }
  split.
  - destruct (line doc n) as [l|] eqn:Hl.
    + rewrite (Hshape l eq_refl). unfold getFocusInfoForLine. rewrite Hl. result_step.
      destruct (heading_match (text l)); [|done].
      by rewrite getHeadingFocusInfo_block.
    + unfold getFocusInfoForLine. by rewrite Hl.
  - intros l Hl. rewrite (Hshape l Hl). split.
    + intros lvl Hpat. apply heading_match_iff in Hpat. by rewrite Hpat.
    + intros Hno. destruct (heading_match (text l)) as [lvl|] eqn:Hm; [|done].
      apply heading_match_iff in Hm. by destruct (Hno lvl).
Qed.

Lemma X4_block_scope_ignores_metadata_witness :
  getFocusInfoForLine {| metadata := Some adjacent_metadata; includeBody := false |}
    3 adjacent_doc
  = getFocusInfoForLine block_manager 3 adjacent_doc.
Proof.
  exact (proj1 (X4_block_scope_ignores_metadata
                  {| metadata := Some adjacent_metadata; includeBody := false |}
                  adjacent_doc 3 eq_refl)).
Defined.

(** ** Parent headings, continued *)

Lemma scan_back_Some_inv this n backwards info :
  scan_back this n backwards = Some info →
  ∃ skipped h earlier,
    backwards = skipped ++ h :: earlier
    ∧ Forall (λ h', ¬ heading_start_line h' + 1 < n) skipped
    ∧ heading_start_line h + 1 < n
    ∧ info = getHeadingFocusInfo this (heading_start_line h + 1) (heading_level h).
Proof.
  induction backwards as [|h bs IH]; simpl; [done|].
  case_decide as Hh.
  - intros [= <-]. by exists [], h, bs.
  - intros (skipped & h' & earlier & -> & Hsk & Hh' & ->)%IH.
    exists (h :: skipped), h', earlier. repeat split; [|done].
    by constructor.
Qed.

Lemma scan_back_None this n backwards :
  scan_back this n backwards = None ↔
  Forall (λ h, ¬ heading_start_line h + 1 < n) backwards.
Proof.
  induction backwards as [|h bs IH]; simpl.
  - split; [constructor|done].
  - case_decide as Hh.
    + split; [done|]. intros Hall%Forall_inv. done.
    + rewrite IH. split; [by constructor|]. by inversion 1.
Qed.

Lemma findParentHeading_Some_inv this n info :
  findParentHeading this n = Some info →
  ∃ md hs h,
    metadata this = Some md ∧ headings md = Some hs
    ∧ nearest_preceding_heading hs n h
    ∧ info = getHeadingFocusInfo this (heading_start_line h + 1) (heading_level h).
Proof.
  unfold findParentHeading. destruct (metadata this) as [md|]; simpl; [|done].
  destruct (headings md) as [hs|] eqn:Hhs; [|done].
  intros (skipped & h & earlier & Hrev & Hsk & Hh & ->)%scan_back_Some_inv.
  exists md, hs, h. repeat split; [done|].
  exists (reverse earlier), (reverse skipped). repeat split; [|done|].
  - apply (f_equal reverse) in Hrev. rewrite reverse_involutive in Hrev.
    by rewrite Hrev, reverse_app, reverse_cons, <- app_assoc.
  - by apply Forall_reverse.
Qed.

Lemma findParentHeading_before this n info :
  findParentHeading this n = Some info → fromLine info < n.
Proof.
  intros (md & hs & h & _ & _ & (_ & _ & _ & Hh & _) & ->)%findParentHeading_Some_inv.
  by destruct (getHeadingFocusInfo_shape this (heading_start_line h + 1)
                 (heading_level h)) as (-> & _).
Qed.

(** X8: [findParentHeading] returns nothing exactly when no heading of the
    metadata starts before the clicked line; otherwise it returns the
    extent of the nearest preceding heading of the metadata, and that
    extent starts strictly before the clicked line. *)
Theorem X8_findParentHeading_precedes this n :
  (findParentHeading this n = None ↔
     ∀ md, metadata this = Some md → no_preceding_heading md n)
  ∧ ∀ info, findParentHeading this n = Some info →
      fromLine info < n
      ∧ ∃ md hs h,
          metadata this = Some md ∧ headings md = Some hs
          ∧ nearest_preceding_heading hs n h
          ∧ info = getHeadingFocusInfo this (heading_start_line h + 1) (heading_level h).
Proof.
  split.
  - unfold findParentHeading, no_preceding_heading.
    destruct (metadata this) as [md|]; simpl; [|by split].
    destruct (headings md) as [hs|] eqn:Hhs.
    + rewrite scan_back_None, Forall_reverse. split.
      * intros Hall md' [= <-]. by rewrite Hhs.
      * intros Hall. specialize (Hall md eq_refl). by rewrite Hhs in Hall.
    + split; [|done]. intros _ md' [= <-]. by rewrite Hhs.
  - intros info Hinfo. split.
    + by apply (findParentHeading_before this n).
    + by apply findParentHeading_Some_inv.
Qed.

Lemma X8_findParentHeading_precedes_witness :
  fromLine {| fromLine := 2; toLine := 3; type := heading; level := Some 1 |} < 3.
Proof.
  exact (proj1 (proj2 (X8_findParentHeading_precedes adjacent_manager 3)
                  {| fromLine := 2; toLine := 3; type := heading; level := Some 1 |}
                  eq_refl)).
Defined.

(** ** Results of a click *)

Lemma getFocusInfoForLine_in_range this (doc : Doc) n :
  1 ≤ n ≤ lines doc → ∃ info, getFocusInfoForLine this n doc = Ok (Some info).
Proof.
  intros Hn. destruct (line_Ok doc n Hn) as (l & Hl & _).
  destruct (getParagraphFocusInfo_extent doc n Hn) as (f & t & Hpar & _).
  unfold getFocusInfoForLine. rewrite Hl, Hpar. result_step.
  destruct (heading_match (text l)); [by eexists|].
  destruct (metadata this); [|by eexists].
  destruct (findParentHeading this n); [|by eexists].
  destruct (includeBody this); by eexists.
Qed.

Lemma getFocusInfoForLine_Ok_range this (doc : Doc) n r :
  getFocusInfoForLine this n doc = Ok r → 1 ≤ n ≤ lines doc.
Proof.
  unfold getFocusInfoForLine. destruct (line doc n) as [l|] eqn:Hl; [|done].
  intros _. by apply line_Ok_inv in Hl as (Hin & _).
Qed.

(** X9: [getFocusInfoForLine] raises, with the [RangeError] of
    [doc.line], exactly when the line number is 0 or beyond the last line
    of the document. *)
Theorem X9_getFocusInfoForLine_range this (doc : Doc) n :
  getFocusInfoForLine this n doc = RangeError ↔ ¬ (1 ≤ n ≤ lines doc).
Proof.
  split.
  - intros Herr Hn. destruct (getFocusInfoForLine_in_range this doc n Hn) as [info Hok].
    congruence.
  - intros Hn. destruct (getFocusInfoForLine this n doc) as [r|] eqn:Hr; [|done].
    destruct Hn. by apply (getFocusInfoForLine_Ok_range this doc n r).
Qed.

Lemma X9_getFocusInfoForLine_range_witness :
  getFocusInfoForLine adjacent_manager 4 adjacent_doc = RangeError
  ∧ getFocusInfoForLine adjacent_manager 0 adjacent_doc = RangeError.
Proof.
  split.
  - apply (proj2 (X9_getFocusInfoForLine_range adjacent_manager adjacent_doc 4)).
    unfold lines. simpl. lia.
  - apply (proj2 (X9_getFocusInfoForLine_range adjacent_manager adjacent_doc 0)).
    lia.
Defined.

(** X5: whatever the metadata and the body-inclusion flag, an extent
    returned by [getFocusInfoForLine] never starts after the clicked
    line; a paragraph extent carries no level, holds the clicked line and
    lies inside the document, and a heading extent carries a level. *)
Theorem X5_extent_starts_at_or_before_click this (doc : Doc) n info :
  getFocusInfoForLine this n doc = Ok (Some info) →
  fromLine info ≤ n
  ∧ (type info = paragraph →
       level info = None ∧ 1 ≤ fromLine info ∧ n ≤ toLine info ∧ toLine info ≤ lines doc)
  ∧ (type info = heading → ∃ lvl, level info = Some lvl).
Proof.
  intros Hok.
  pose proof (getFocusInfoForLine_Ok_range this doc n _ Hok) as Hn.
  destruct (getParagraphFocusInfo_extent doc n Hn)
    as (f & t & Hpar & Hf1 & Hf2 & Ht1 & Ht2 & _).
  assert (∀ lvl hl, hl ≤ n → info = getHeadingFocusInfo this hl lvl →
            fromLine info ≤ n
            ∧ (type info = paragraph →
                 level info = None ∧ 1 ≤ fromLine info ∧ n ≤ toLine info
                 ∧ toLine info ≤ lines doc)
            ∧ (type info = heading → ∃ lvl, level info = Some lvl)) as Hhead.
  { intros lvl hl Hhl ->.
    destruct (getHeadingFocusInfo_shape this hl lvl) as (-> & -> & ->).
    split; [done|]. split; [done|]. intros _. by exists lvl. }
  unfold getFocusInfoForLine in Hok. rewrite Hpar in Hok.
  destruct (line doc n) as [l|]; [|done]. revert Hok. result_step.
  destruct (heading_match (text l)) as [lvl|].
  { intros [= <-]. by apply (Hhead lvl n). }
  assert (Ok (Some {| fromLine := f; toLine := t; type := paragraph; level := None |})
            = Ok (Some info) →
          fromLine info ≤ n
          ∧ (type info = paragraph →
               level info = None ∧ 1 ≤ fromLine info ∧ n ≤ toLine info
               ∧ toLine info ≤ lines doc)
          ∧ (type info = heading → ∃ lvl, level info = Some lvl)) as Hparagraph.
  { intros [= <-]. simpl. split; [done|]. split; [done|]. done. }
  destruct (metadata this) as [md|]; [|done].
  destruct (findParentHeading this n) as [parent|] eqn:Hparent; [|done].
  destruct (includeBody this); [|done].
  intros [= <-].
  pose proof (findParentHeading_before this n parent Hparent) as Hlt.
  apply findParentHeading_Some_inv in Hparent as (md' & hs & h & _ & _ & _ & Heq).
  destruct (getHeadingFocusInfo_shape this (heading_start_line h + 1)
              (heading_level h)) as (Hfrom & _).
  rewrite <- Heq in Hfrom.
  apply (Hhead (heading_level h) (heading_start_line h + 1)); [lia|done].
Qed.

Lemma X5_extent_starts_at_or_before_click_witness :
  fromLine {| fromLine := 2; toLine := 3; type := heading; level := Some 1 |} ≤ 3.
Proof.
  exact (proj1 (X5_extent_starts_at_or_before_click adjacent_manager adjacent_doc 3
                  {| fromLine := 2; toLine := 3; type := heading; level := Some 1 |}
                  eq_refl)).
Defined.

(** ** Paragraphs, continued *)

(** X6: every line of a paragraph gives the same extent: when a click on
    a line that is not itself a boundary yields [fromLine, toLine], a
    click on any line of that range yields the same range. *)
Theorem X6_paragraph_extent_shared (doc : Doc) n m l f t :
  line doc n = Ok l → ¬ boundary_trimmed (text l) →
  getParagraphFocusInfo n doc
    = Ok {| fromLine := f; toLine := t; type := paragraph; level := None |} →
  f ≤ m ≤ t →
  getParagraphFocusInfo m doc
    = Ok {| fromLine := f; toLine := t; type := paragraph; level := None |}.
Proof.
  intros Hl Hnb Hpar Hm.
  apply line_Ok_inv in Hl as Hn. destruct Hn as (Hn & _).
  destruct (getParagraphFocusInfo_extent doc n Hn) as (f0 & t0 & Hpar0 & Hext).
  rewrite Hpar in Hpar0. injection Hpar0 as <- <-.
  destruct Hext as (Hf1 & Hf2 & Ht1 & Ht2 & Hup & Hdown & Hfedge & Htedge).
  assert (∀ j lj, f ≤ j ≤ t → line doc j = Ok lj → stops_paragraph (text lj) ≠ true)
    as Hinside.
  { intros j lj Hj Hlj.
    destruct (Nat.lt_trichotomy j n) as [Hlt|[->|Hgt]].
    - apply (Hup j); [lia|done].
    - rewrite Hl in Hlj. injection Hlj as <-. by rewrite stops_paragraph_iff.
    - apply (Hdown j); [lia|done]. }
  destruct (getParagraphFocusInfo_extent doc m) as (f' & t' & Hpar' & Hext'); [lia|].
  destruct Hext' as (Hf1' & Hf2' & Ht1' & Ht2' & Hup' & Hdown' & Hfedge' & Htedge').
  rewrite Hpar'.
  assert (f' = f) as ->.
  { destruct (Nat.lt_trichotomy f' f) as [Hlt|[->|Hgt]]; [|done|]; exfalso.
    - destruct Hfedge as [->|(lf & Hlf & Hstop)]; [lia|].
      apply (Hup' (f - 1) lf); [lia|done|done].
    - destruct Hfedge' as [->|(lf & Hlf & Hstop)]; [lia|].
      apply (Hinside (f' - 1) lf); [lia|done|done]. }
  assert (t' = t) as ->; [|done].
  destruct (Nat.lt_trichotomy t' t) as [Hlt|[->|Hgt]]; [|done|]; exfalso.
  - destruct Htedge' as [->|(lt' & Hlt' & Hstop)]; [lia|].
    apply (Hinside (t' + 1) lt'); [lia|done|done].
  - destruct Htedge as [->|(lt' & Hlt' & Hstop)]; [lia|].
    apply (Hdown' (t + 1) lt'); [lia|done|done].
Qed.

Lemma X6_paragraph_extent_shared_witness :
  getParagraphFocusInfo 3 H1doc
    = Ok {| fromLine := 2; toLine := 3; type := paragraph; level := None |}.
Proof.
  refine (X6_paragraph_extent_shared H1doc 2 3
            {| number := 2; from := 5; text := js "line A" |} 2 3
            eq_refl _ eq_refl _).
  - intros Hb. apply stops_paragraph_iff in Hb. discriminate Hb.
  - lia.
Defined.

Lemma line_text_ext (doc doc' : Doc) i :
  doc !! (i - 1) = doc' !! (i - 1) →
  text <$> line doc i = text <$> line doc' i.
Proof.
  unfold line. destruct i as [|k]; [done|]. replace (S k - 1) with k by lia.
  intros <-. by destruct (doc !! k).
Qed.

Lemma scan_up_ext (doc doc' : Doc) i fromLine :
  (∀ j, j < i → doc !! j = doc' !! j) →
  scan_up doc i fromLine = scan_up doc' i fromLine.
Proof.
  revert fromLine. induction i as [|i IH]; intros fromLine Hsame; [done|].
  cbn [scan_up].
  pose proof (line_text_ext doc doc' (S i)) as Htext.
  replace (S i - 1) with i in Htext by lia. specialize (Htext (Hsame i ltac:(lia))).
  destruct (line doc (S i)) as [l|], (line doc' (S i)) as [l'|]; try done.
  result_step. injection Htext as <-.
  destruct (stops_paragraph (text l)); [done|]. apply IH. intros j Hj. apply Hsame. lia.
Qed.

Lemma scan_down_ext (doc doc' : Doc) todo i toLine :
  1 ≤ i → (∀ j, i - 1 ≤ j → doc !! j = doc' !! j) →
  scan_down doc todo i toLine = scan_down doc' todo i toLine.
Proof.
  revert i toLine. induction todo as [|todo IH]; intros i toLine Hi Hsame; [done|].
  cbn [scan_down].
  pose proof (line_text_ext doc doc' i (Hsame (i - 1) ltac:(lia))) as Htext.
  destruct (line doc i) as [l|], (line doc' i) as [l'|]; try done.
  result_step. injection Htext as <-.
  destruct (stops_paragraph (text l)); [done|].
  apply IH; [lia|]. intros j Hj. apply Hsame. lia.
Qed.

(** X7: [getParagraphFocusInfo] never reads the clicked line: replacing
    its text by any other text leaves the extent as it was (so a click on
    a blank line yields the paragraphs above and below it as one extent). *)
Theorem X7_paragraph_ignores_clicked_line (doc : Doc) n (t : jsstring) :
  1 ≤ n →
  getParagraphFocusInfo n (<[n - 1 := t]> doc) = getParagraphFocusInfo n doc.
Proof.
  intros Hn. unfold getParagraphFocusInfo, lines. rewrite length_insert.
  rewrite (scan_up_ext (<[n - 1 := t]> doc) doc).
  2:{ intros j Hj. apply list_lookup_insert_ne. lia. }
  rewrite (scan_down_ext (<[n - 1 := t]> doc) doc); [done|lia|].
  intros j Hj. apply list_lookup_insert_ne. lia.
Qed.

Lemma X7_paragraph_ignores_clicked_line_witness :
  getParagraphFocusInfo 4 (<[3 := js "not blank"]> H1doc)
  = getParagraphFocusInfo 4 H1doc
  ∧ getParagraphFocusInfo 4 H1doc
    = Ok {| fromLine := 2; toLine := 5; type := paragraph; level := None |}.
Proof.
  split; [|reflexivity].
  apply (X7_paragraph_ignores_clicked_line H1doc 4 (js "not blank")). lia.
Defined.

(** ** The editor state after a focus or clear *)

Lemma clearFocus_eq st :
  clearFocus st
  = Ok {| state_doc := state_doc st; state_focus := None; state_decorations := [] |}.
Proof. reflexivity. Qed.

Lemma applyFocus_eq st f :
  applyFocus st f
  = Ok {| state_doc := state_doc st; state_focus := Some f;
          state_decorations := expected_decorations (state_doc st) f |}.
Proof.
  unfold applyFocus, dispatch_effect, applyTransaction, focusDecorationsField_update.
  cbn [effects newDoc mapDecorations decorations_loop is_focus_effect
       focusStateField_update focusState_loop].
  rewrite buildDecorations_Some. reflexivity.
Qed.

(** X10: [buildDecorations] hands its ranges to the builder in strictly
    increasing position order, which is the order [RangeSetBuilder.add]
    insists on: a later range always starts after an earlier one. *)
Theorem X10_decorations_added_in_order (doc : Doc) focusInfo ds i j p q :
  buildDecorations doc focusInfo = Ok ds →
  i < j → ds !! i = Some p → ds !! j = Some q →
  p.1 < q.1.
Proof.
  intros Hb Hij Hp Hq. destruct focusInfo as [f|]; [|simpl in Hb; injection Hb as <-; done].
  rewrite buildDecorations_Some in Hb. injection Hb as <-.
  unfold expected_decorations in Hp, Hq.
  rewrite list_lookup_fmap in Hp, Hq.
  apply fmap_Some in Hp as (a & Ha & ->). apply fmap_Some in Hq as (b & Hb & ->).
  apply lookup_seq in Ha as [-> Hi]. apply lookup_seq in Hb as [-> Hj]. simpl.
  unfold lines in Hj. apply line_start_lt; lia.
Qed.

Lemma X10_decorations_added_in_order_witness :
  (5, focusedLineMark).1 < (19, dimmedLineMark).1.
Proof.
  exact (X10_decorations_added_in_order H1doc (Some sample_focus)
           [(0, dimmedLineMark); (5, focusedLineMark); (12, focusedLineMark);
            (19, dimmedLineMark); (20, dimmedLineMark)]
           1 3 (5, focusedLineMark) (19, dimmedLineMark)
           eq_refl ltac:(lia) eq_refl eq_refl).
Defined.

(** X11: after [applyFocus], [isLineFocused] and the decorations agree on
    every line of the document: the line is reported focused exactly when
    it carries the focused marker, and not focused exactly when it carries
    the dimmed marker; the document itself is left as it was. *)
Theorem X11_isLineFocused_matches_decorations st f st' i l :
  applyFocus st f = Ok st' → line (state_doc st') i = Ok l →
  state_doc st' = state_doc st
  ∧ (isLineFocused st' i = true ↔ (from l, focusedLineMark) ∈ state_decorations st')
  ∧ (isLineFocused st' i = false ↔ (from l, dimmedLineMark) ∈ state_decorations st').
Proof.
  rewrite applyFocus_eq. intros [= <-] Hl. cbn [state_doc] in Hl.
  split; [done|]. unfold isLineFocused. cbn [state_focus state_decorations].
  rewrite !(expected_decorations_at _ f i l) by done. unfold mark_for.
  case_bool_decide; case_decide; try done; split; split; done.
Qed.

Lemma X11_isLineFocused_matches_decorations_witness :
  isLineFocused
    {| state_doc := H1doc; state_focus := Some sample_focus;
       state_decorations := expected_decorations H1doc sample_focus |} 2 = true
  ↔ (5, focusedLineMark) ∈ expected_decorations H1doc sample_focus.
Proof.
  exact (proj1 (proj2 (X11_isLineFocused_matches_decorations
                         (EditorState_create H1doc) sample_focus
                         {| state_doc := H1doc; state_focus := Some sample_focus;
                            state_decorations := expected_decorations H1doc sample_focus |}
                         2 {| number := 2; from := 5; text := js "line A" |}
                         (applyFocus_eq (EditorState_create H1doc) sample_focus)
                         eq_refl))).
Defined.

(** X12: [applyFocus] and [clearFocus] never raise and never touch the
    document; clearing after focusing brings the editor back to the state
    it is created in for that document (no focus, no decorations), on
    which no line is reported focused; focusing twice is focusing once,
    and clearing twice is clearing once. *)
Theorem X12_focus_then_clear st f :
  ∃ focused cleared,
    applyFocus st f = Ok focused
    ∧ clearFocus focused = Ok cleared
    ∧ cleared = EditorState_create (state_doc st)
    ∧ (∀ i, isLineFocused cleared i = false)
    ∧ applyFocus focused f = Ok focused
    ∧ clearFocus cleared = Ok cleared
    ∧ applyFocus cleared f = Ok focused.
Proof.
  eexists _, _. split; [apply applyFocus_eq|]. split; [apply clearFocus_eq|].
  split; [reflexivity|]. split; [done|].
  split; [by rewrite applyFocus_eq|]. split; [reflexivity|].
  by rewrite applyFocus_eq.
Qed.

(** ** Clicks in the source-mode editor *)

Lemma getEditorView_with_editor_state ws ev st :
  getEditorView ws = Some ev →
  getEditorView (with_editor_state ws st)
    = Some {| state := st; posAtCoords := posAtCoords ev |}.
Proof.
  unfold getEditorView, with_editor_state. cbn [activeView].
  destruct (activeView ws) as [v|]; [|done]. simpl.
  destruct (cm v) as [e|]; [|done]. simpl. by intros [= ->].
Qed.

Lemma fast_click_editor {FocusManager} (w : World FocusManager) down up n :
  fast_click_on_line w down up n →
  ∃ ev, getEditorView (workspace w) = Some ev.
Proof.
  intros (_ & _ & _ & view & ev & pos & l & Hview & _ & Hcm & _).
  exists ev. unfold getEditorView. by rewrite Hview.
Qed.

(** A click stays a click on the same line after an earlier click: the
    handlers change neither the settings, nor the view, nor the text. *)
Lemma fast_click_after_click {FocusManager} (w : World FocusManager) down up n down' st' ev :
  getEditorView (workspace w) = Some ev →
  state_doc st' = state_doc (state ev) →
  fast_click_on_line w down up n →
  fast_click_on_line (after_click w down' st') down up n.
Proof.
  intros Hev Hdoc (Hen & Hfast & Htarget & view & ev' & pos & l
                   & Hview & Hmode & Hcm & Hpos & Hne & Hl & Hnum).
  assert (ev' = ev) as ->.
  { unfold getEditorView in Hev. rewrite Hview in Hev. simpl in Hev. congruence. }
  repeat split; [done..|].
  eexists _, {| state := st'; posAtCoords := posAtCoords ev |}, pos, l.
  cbn [after_click workspace with_editor_state activeView].
  rewrite Hview. cbn [fmap option_fmap option_map]. rewrite Hcm.
  repeat split; try done. cbn [state]. by rewrite Hdoc.
Qed.

(** The handler's way through a click that focuses: no clear rule applies
    and [getFocusInfoForLine] yields an extent. *)
Lemma click_focuses {FocusManager} previewPointerUp (w : World FocusManager)
    down up n ev f :
  fast_click_on_line w down up n →
  getEditorView (workspace w) = Some ev →
  (∀ cf, state_focus (state ev) = Some cf →
     clearMethod (settings (plugin w)) = click_again →
     ¬ (fromLine cf ≤ n ∧ n ≤ toLine cf)) →
  (∀ cf el, state_focus (state ev) = Some cf →
     clearMethod (settings (plugin w)) = click_outside →
     target up = Some el →
     classList_contains el "cm-gutters" || classList_contains el "cm-editor" = false) →
  getFocusInfoForLine
    (setMetadata (editModeFocusManager (plugin w)) (fileCache (workspace w)))
    n (state_doc (state ev)) = Ok (Some f) →
  click previewPointerUp w down up
    = Ok (after_click w down
            {| state_doc := state_doc (state ev); state_focus := Some f;
               state_decorations := expected_decorations (state_doc (state ev)) f |}).
Proof.
  intros (Hen & Hfast & [el Hel] & view & ev' & pos & l
          & Hview & Hmode & Hcm & Hpos & Hne & Hl & Hnum) Hev Hagain Houtside Hinfo.
  assert (ev' = ev) as ->.
  { unfold getEditorView in Hev. rewrite Hview in Hev. simpl in Hev. congruence. }
  unfold click, pointerup, pointerdown.
  cbn [plugin settings lastClick workspace].
  rewrite Hen, Hfast, Hel, Hview, Hmode. cbn [negb].
  unfold handleEditModeClick. cbn [plugin workspace editModeFocusManager settings].
  rewrite Hev, Hpos. destruct pos as [|pos']; [done|].
  rewrite Hl. result_step. rewrite Hnum.
  unfold with_editModeFocusManager. cbn [settings editModeFocusManager].
  rewrite Hinfo. result_step. rewrite applyFocus_eq. result_step.
  destruct (state_focus (state ev)) as [cf|] eqn:Hcf; [|done].
  destruct (clearMethod (settings (plugin w))) eqn:Hcm'.
  - rewrite bool_decide_eq_false_2 by (by apply Hagain). done.
  - rewrite Hel. by rewrite (Houtside cf el).
Qed.

(** The handler's way through a click that clears under click-again. *)
Lemma click_again_clears {FocusManager} previewPointerUp (w : World FocusManager)
    down up n ev cf :
  fast_click_on_line w down up n →
  getEditorView (workspace w) = Some ev →
  clearMethod (settings (plugin w)) = click_again →
  state_focus (state ev) = Some cf → fromLine cf ≤ n ∧ n ≤ toLine cf →
  click previewPointerUp w down up
    = Ok (after_click w down (EditorState_create (state_doc (state ev)))).
Proof.
  intros (Hen & Hfast & [el Hel] & view & ev' & pos & l
          & Hview & Hmode & Hcm & Hpos & Hne & Hl & Hnum) Hev Hmethod Hcf Hin.
  assert (ev' = ev) as ->.
  { unfold getEditorView in Hev. rewrite Hview in Hev. simpl in Hev. congruence. }
  unfold click, pointerup, pointerdown.
  cbn [plugin settings lastClick workspace].
  rewrite Hen, Hfast, Hel, Hview, Hmode. cbn [negb].
  unfold handleEditModeClick. cbn [plugin workspace editModeFocusManager settings].
  rewrite Hev, Hpos. destruct pos as [|pos']; [done|].
  rewrite Hl. result_step. rewrite Hnum.
  unfold with_editModeFocusManager. cbn [settings editModeFocusManager].
  rewrite Hcf, Hmethod. rewrite bool_decide_eq_true_2 by done.
  rewrite clearFocus_eq. done.
Qed.

Lemma editor_state_after_click {FocusManager} (w : World FocusManager) down st' ev :
  getEditorView (workspace w) = Some ev →
  editor_state (after_click w down st') = Some st'.
Proof.
  intros Hev. unfold editor_state. cbn [after_click workspace].
  by rewrite (getEditorView_with_editor_state _ ev).
Qed.

(** X13: under the click-again method, starting from an unfocused editor,
    three clicks on a line whose extent holds that line go focus, clear,
    focus: the first click focuses the extent of [getFocusInfoForLine]
    and decorates every line, the second returns the editor to the
    unfocused state without decorations, and the third restores exactly
    the editor state of the first. *)
Theorem X13_click_again_toggles {FocusManager} previewPointerUp
    (w : World FocusManager) (st : EditorState) n f d1 u1 d2 u2 d3 u3 :
  clearMethod (settings (plugin w)) = click_again →
  editor_state w = Some st → state_focus st = None →
  fast_click_on_line w d1 u1 n →
  fast_click_on_line w d2 u2 n →
  fast_click_on_line w d3 u3 n →
  getFocusInfoForLine
    (setMetadata (editModeFocusManager (plugin w)) (fileCache (workspace w)))
    n (state_doc st) = Ok (Some f) →
  fromLine f ≤ n ∧ n ≤ toLine f →
  ∃ w1 w2 w3,
    click previewPointerUp w d1 u1 = Ok w1
    ∧ editor_state w1
      = Some {| state_doc := state_doc st; state_focus := Some f;
                state_decorations := expected_decorations (state_doc st) f |}
    ∧ click previewPointerUp w1 d2 u2 = Ok w2
    ∧ editor_state w2 = Some (EditorState_create (state_doc st))
    ∧ click previewPointerUp w2 d3 u3 = Ok w3
    ∧ editor_state w3 = editor_state w1.
Proof.
  intros Hmethod Hst Hnone H1 H2 H3 Hinfo Hin.
  destruct (fast_click_editor w d1 u1 n H1) as [ev Hev].
  assert (st = state ev) as ->.
  { unfold editor_state in Hst. rewrite Hev in Hst. simpl in Hst. congruence. }
  set (doc := state_doc (state ev)) in *.
  set (st1 := {| state_doc := doc; state_focus := Some f;
                 state_decorations := expected_decorations doc f |}).
  set (w1 := after_click w d1 st1).
  set (ev1 := {| state := st1; posAtCoords := posAtCoords ev |}).
  assert (getEditorView (workspace w1) = Some ev1) as Hev1
    by (by apply getEditorView_with_editor_state).
  set (w2 := after_click w1 d2 (EditorState_create doc)).
  set (ev2 := {| state := EditorState_create doc; posAtCoords := posAtCoords ev1 |}).
  assert (getEditorView (workspace w2) = Some ev2) as Hev2
    by (by apply getEditorView_with_editor_state).
  exists w1, w2, (after_click w2 d3 st1).
  split.
  { apply (click_focuses _ w d1 u1 n ev f); try done.
    - intros cf Hcf. congruence.
    - intros cf el Hcf. congruence. }
  split; [by apply (editor_state_after_click w d1 st1 ev)|].
  split.
  { apply (click_again_clears _ w1 d2 u2 n ev1 f); try done.
    by apply (fast_click_after_click w d2 u2 n d1 st1 ev). }
  split; [by apply (editor_state_after_click w1 d2 _ ev1)|].
  split.
  { apply (click_focuses _ w2 d3 u3 n ev2 f); try done.
    apply (fast_click_after_click w1 d3 u3 n d2 _ ev1); [done..|].
    by apply (fast_click_after_click w d3 u3 n d1 st1 ev). }
  rewrite (editor_state_after_click w2 d3 st1 ev2) by done.
  symmetry. by apply (editor_state_after_click w d1 st1 ev).
Qed.

Lemma X13_click_again_toggles_witness :
  ∃ w1 w2 w3,
    click (λ _ _ _ fm, fm) sample_world (pointer_at 100) (pointer_at 300) = Ok w1
    ∧ editor_state w1
      = Some {| state_doc := H1doc; state_focus := Some sample_focus;
                state_decorations := expected_decorations H1doc sample_focus |}
    ∧ click (λ _ _ _ fm, fm) w1 (pointer_at 2000) (pointer_at 2100) = Ok w2
    ∧ editor_state w2 = Some (EditorState_create H1doc)
    ∧ click (λ _ _ _ fm, fm) w2 (pointer_at 5000) (pointer_at 5200) = Ok w3
    ∧ editor_state w3 = editor_state w1.
Proof.
  assert (∀ a b, PrimFloat.ltb 1600 (PrimFloat.sub b a) = false →
            fast_click_on_line sample_world (pointer_at a) (pointer_at b) 2) as Hfast.
  { intros a b Hab. split; [reflexivity|]. split; [exact Hab|]. split; [by eexists|].
    eexists sample_view, _, 6, _. repeat split; try reflexivity. lia. }
  apply (X13_click_again_toggles (λ _ _ _ fm, fm) sample_world
           (EditorState_create H1doc) 2 sample_focus
           (pointer_at 100) (pointer_at 300) (pointer_at 2000) (pointer_at 2100)
           (pointer_at 5000) (pointer_at 5200)).
  - reflexivity.
  - reflexivity.
  - reflexivity.
  - by apply Hfast.
  - by apply Hfast.
  - by apply Hfast.
  - reflexivity.
  - simpl. lia.
Defined.

(** The handler's way through a click that clears under click-outside. *)
Lemma click_outside_clears {FocusManager} previewPointerUp (w : World FocusManager)
    down up n ev cf el :
  fast_click_on_line w down up n →
  getEditorView (workspace w) = Some ev →
  clearMethod (settings (plugin w)) = click_outside →
  state_focus (state ev) = Some cf →
  target up = Some el →
  classList_contains el "cm-gutters" || classList_contains el "cm-editor" = true →
  click previewPointerUp w down up
    = Ok (after_click w down (EditorState_create (state_doc (state ev)))).
Proof.
  intros (Hen & Hfast & _ & view & ev' & pos & l
          & Hview & Hmode & Hcm & Hpos & Hne & Hl & Hnum) Hev Hmethod Hcf Hel Hclass.
  assert (ev' = ev) as ->.
  { unfold getEditorView in Hev. rewrite Hview in Hev. simpl in Hev. congruence. }
  unfold click, pointerup, pointerdown.
  cbn [plugin settings lastClick workspace].
  rewrite Hen, Hfast, Hel, Hview, Hmode. cbn [negb].
  unfold handleEditModeClick. cbn [plugin workspace editModeFocusManager settings].
  rewrite Hev, Hpos. destruct pos as [|pos']; [done|].
  rewrite Hl. result_step. rewrite Hnum.
  unfold with_editModeFocusManager. cbn [settings editModeFocusManager].
  rewrite Hcf, Hmethod, Hel, Hclass. rewrite clearFocus_eq. done.
Qed.

(** X14: under the click-outside method, for a fast click in the
    source-mode editor whose coordinates resolve to a line at an offset
    other than 0 (a click that resolves to no position, or to offset 0,
    changes nothing whatever its target: X16): if a focus is active and
    the target carries the class [cm-gutters] or [cm-editor], the focus is
    cleared; in every other case, so also on a line that is focused
    already, the click focuses the extent of the line. *)
Theorem X14_click_outside {FocusManager} previewPointerUp
    (w : World FocusManager) (st : EditorState) n down up el :
  clearMethod (settings (plugin w)) = click_outside →
  editor_state w = Some st →
  fast_click_on_line w down up n →
  target up = Some el →
  (∀ cf, state_focus st = Some cf →
     classList_contains el "cm-gutters" || classList_contains el "cm-editor" = true →
     ∃ w', click previewPointerUp w down up = Ok w'
       ∧ editor_state w' = Some (EditorState_create (state_doc st)))
  ∧ (∀ f,
       state_focus st = None
       ∨ classList_contains el "cm-gutters" || classList_contains el "cm-editor" = false →
       getFocusInfoForLine
         (setMetadata (editModeFocusManager (plugin w)) (fileCache (workspace w)))
         n (state_doc st) = Ok (Some f) →
       ∃ w', click previewPointerUp w down up = Ok w'
         ∧ editor_state w'
           = Some {| state_doc := state_doc st; state_focus := Some f;
                     state_decorations := expected_decorations (state_doc st) f |}).
Proof.
  intros Hmethod Hst Hfast Hel.
  destruct (fast_click_editor w down up n Hfast) as [ev Hev].
  assert (st = state ev) as ->.
  { unfold editor_state in Hst. rewrite Hev in Hst. simpl in Hst. congruence. }
  split.
  - intros cf Hcf Hclass. eexists. split.
    + by apply (click_outside_clears _ w down up n ev cf el).
    + by apply (editor_state_after_click w down _ ev).
  - intros f Hcase Hinfo. eexists. split.
    + apply (click_focuses _ w down up n ev f); try done.
      * intros cf Hcf Hagain. congruence.
      * intros cf el' Hcf _ Hel'. destruct Hcase as [Hnone|Hclass]; congruence.
    + by apply (editor_state_after_click w down _ ev).
Qed.

Lemma X14_click_outside_witness :
  (∃ w',
     click (λ _ _ _ fm, fm) focused_world_outside (gutter_at 2000) (gutter_at 2100)
       = Ok w'
     ∧ editor_state w' = Some (EditorState_create H1doc))
  ∧ (∃ w',
       click (λ _ _ _ fm, fm) focused_world_outside (pointer_at 2000) (pointer_at 2100)
         = Ok w'
       ∧ editor_state w'
         = Some {| state_doc := H1doc; state_focus := Some sample_focus;
                   state_decorations := expected_decorations H1doc sample_focus |})
  ∧ (∃ w',
       click (λ _ _ _ fm, fm) sample_world_outside (gutter_at 100) (gutter_at 300)
         = Ok w'
       ∧ editor_state w'
         = Some {| state_doc := H1doc; state_focus := Some sample_focus;
                   state_decorations := expected_decorations H1doc sample_focus |}).
Proof.
  split; [|split].
  - refine (proj1 (X14_click_outside (λ _ _ _ fm, fm) focused_world_outside
                     {| state_doc := H1doc; state_focus := Some sample_focus;
                        state_decorations := expected_decorations H1doc sample_focus |}
                     2 (gutter_at 2000) (gutter_at 2100)
                     {| classList := ["cm-gutters"%string] |}
                     eq_refl eq_refl _ eq_refl) sample_focus eq_refl eq_refl).
    split; [reflexivity|]. split; [reflexivity|]. split; [by eexists|].
    eexists _, _, 6, _. repeat split; try reflexivity. lia.
  - refine (proj2 (X14_click_outside (λ _ _ _ fm, fm) focused_world_outside
                     {| state_doc := H1doc; state_focus := Some sample_focus;
                        state_decorations := expected_decorations H1doc sample_focus |}
                     2 (pointer_at 2000) (pointer_at 2100)
                     {| classList := ["cm-line"%string] |}
                     eq_refl eq_refl _ eq_refl) sample_focus (or_intror eq_refl) eq_refl).
    split; [reflexivity|]. split; [reflexivity|]. split; [by eexists|].
    eexists _, _, 6, _. repeat split; try reflexivity. lia.
  - refine (proj2 (X14_click_outside (λ _ _ _ fm, fm) sample_world_outside
                     (EditorState_create H1doc) 2
                     (gutter_at 100) (gutter_at 300)
                     {| classList := ["cm-gutters"%string] |}
                     eq_refl eq_refl _ eq_refl) sample_focus (or_introl eq_refl) eq_refl).
    split; [reflexivity|]. split; [reflexivity|]. split; [by eexists|].
    eexists sample_view, _, 6, _. repeat split; try reflexivity. lia.
Defined.

(** ** What a pointer-up leaves alone *)

Lemma doc_with_editor_state ws st ev :
  getEditorView ws = Some ev → state_doc st = state_doc (state ev) →
  (state_doc ∘ state) <$> getEditorView (with_editor_state ws st)
  = (state_doc ∘ state) <$> getEditorView ws.
Proof.
  intros Hev Hdoc. rewrite (getEditorView_with_editor_state ws ev st Hev), Hev.
  simpl. by rewrite Hdoc.
Qed.

Lemma mode_with_editor_state ws st :
  getMode <$> activeView (with_editor_state ws st) = getMode <$> activeView ws.
Proof. unfold with_editor_state. cbn [activeView]. by destruct (activeView ws). Qed.

Lemma pointerup_frame_same {FocusManager} (w : World FocusManager) :
  pointerup_frame w w.
Proof. unfold pointerup_frame. repeat split; try done. by left. Qed.

Lemma pointerup_frame_preview {FocusManager} (w : World FocusManager) fm' :
  getMode <$> activeView (workspace w) = Some preview →
  pointerup_frame w
    {| plugin := with_focusManager FocusManager (plugin w) fm';
       workspace := workspace w |}.
Proof.
  intros Hmode. unfold pointerup_frame.
  cbn [plugin workspace with_focusManager settings lastClick editModeFocusManager
       focusManager].
  repeat split; try done; [by left|]. rewrite Hmode. done.
Qed.

Lemma pointerup_frame_metadata {FocusManager} (w : World FocusManager) :
  getMode <$> activeView (workspace w) ≠ Some preview →
  pointerup_frame w
    {| plugin := with_editModeFocusManager FocusManager (plugin w)
                   (setMetadata (editModeFocusManager (plugin w))
                      (fileCache (workspace w)));
       workspace := workspace w |}.
Proof.
  intros Hmode. unfold pointerup_frame.
  cbn [plugin workspace with_editModeFocusManager settings lastClick
       editModeFocusManager focusManager setMetadata includeBody metadata].
  repeat split; try done; by right.
Qed.

Lemma pointerup_frame_commit {FocusManager} (w : World FocusManager) ev st' :
  getMode <$> activeView (workspace w) ≠ Some preview →
  getEditorView (workspace w) = Some ev →
  state_doc st' = state_doc (state ev) →
  pointerup_frame w
    {| plugin := with_editModeFocusManager FocusManager (plugin w)
                   (setMetadata (editModeFocusManager (plugin w))
                      (fileCache (workspace w)));
       workspace := with_editor_state (workspace w) st' |}.
Proof.
  intros Hmode Hev Hdoc. unfold pointerup_frame.
  cbn [plugin workspace with_editModeFocusManager settings lastClick
       editModeFocusManager focusManager setMetadata includeBody metadata].
  repeat split; try done.
  - apply mode_with_editor_state.
  - by apply (doc_with_editor_state _ _ ev).
  - by right.
Qed.

(** X15: a pointer-up, whatever it does to the focus, never changes the
    settings, the time of the last pointer-down, the body-inclusion flag,
    the metadata cache, the view mode or the text of the document; the
    manager's metadata is left alone or set to the cached metadata of the
    active file; in source mode the preview manager is not touched, and
    in preview mode the editor and the edit-mode manager are not. *)
Theorem X15_pointerup_frame {FocusManager} previewPointerUp
    (w w' : World FocusManager) (up : PointerEvent) :
  pointerup previewPointerUp w up = Ok w' →
  settings (plugin w') = settings (plugin w)
  ∧ lastClick (plugin w') = lastClick (plugin w)
  ∧ includeBody (editModeFocusManager (plugin w'))
    = includeBody (editModeFocusManager (plugin w))
  ∧ fileCache (workspace w') = fileCache (workspace w)
  ∧ getMode <$> activeView (workspace w') = getMode <$> activeView (workspace w)
  ∧ (state_doc ∘ state) <$> getEditorView (workspace w')
    = (state_doc ∘ state) <$> getEditorView (workspace w)
  ∧ (metadata (editModeFocusManager (plugin w'))
       = metadata (editModeFocusManager (plugin w))
     ∨ metadata (editModeFocusManager (plugin w')) = fileCache (workspace w))
  ∧ (getMode <$> activeView (workspace w) = Some source →
     focusManager (plugin w') = focusManager (plugin w))
  ∧ (getMode <$> activeView (workspace w) = Some preview →
     workspace w' = workspace w
     ∧ editModeFocusManager (plugin w') = editModeFocusManager (plugin w)).
Proof.
  intros Hup. change (pointerup_frame w w'). revert Hup.
  assert (Ok w = Ok w' → pointerup_frame w w') as Hsame
    by (intros [= <-]; apply pointerup_frame_same).
  unfold pointerup.
  destruct (isEnabled (settings (plugin w))); cbn [negb]; [|exact Hsame].
  destruct (PrimFloat.ltb _ _); [exact Hsame|].
  destruct (target up) as [el|]; [|exact Hsame].
  destruct (activeView (workspace w)) as [view|] eqn:Hview; [|exact Hsame].
  destruct (getMode view) eqn:Hmode.
  { intros [= <-]. apply pointerup_frame_preview. rewrite Hview. simpl. by rewrite Hmode. }
  assert (getMode <$> activeView (workspace w) ≠ Some preview) as Hnp
    by (rewrite Hview; simpl; congruence).
  clear Hsame. unfold handleEditModeClick.
  destruct (getEditorView (workspace w)) as [ev|] eqn:Hev.
  2:{ intros [= <-]. apply pointerup_frame_same. }
  cbn [plugin workspace].
  destruct (posAtCoords ev (clientX up) (clientY up)) as [[|pos]|];
    [intros [= <-]; by apply pointerup_frame_metadata|
    |intros [= <-]; by apply pointerup_frame_metadata].
  destruct (lineAt (state_doc (state ev)) (S pos)) as [l|]; [|done]. result_step.
  rewrite !clearFocus_eq. result_step.
  destruct (match state_focus (state ev) with Some _ => _ | None => _ end);
    [intros [= <-]; by apply (pointerup_frame_commit w ev)|].
  destruct (match state_focus (state ev) with Some _ => _ | None => _ end);
    [intros [= <-]; by apply (pointerup_frame_commit w ev)|].
  destruct (getFocusInfoForLine _ _ _) as [[f|]|]; result_step;
    [|intros [= <-]; by apply pointerup_frame_metadata|done].
  rewrite applyFocus_eq. result_step.
  intros [= <-]. by apply (pointerup_frame_commit w ev).
Qed.

Lemma X15_pointerup_frame_witness :
  settings (plugin (after_click sample_world (pointer_at 100)
                      {| state_doc := H1doc; state_focus := Some sample_focus;
                         state_decorations := expected_decorations H1doc sample_focus |}))
  = DEFAULT_SETTINGS.
Proof.
  exact (proj1 (X15_pointerup_frame (λ _ _ _ fm, fm)
                  (pointerdown sample_world (pointer_at 100))
                  (after_click sample_world (pointer_at 100)
                     {| state_doc := H1doc; state_focus := Some sample_focus;
                        state_decorations := expected_decorations H1doc sample_focus |})
                  (pointer_at 300) eq_refl)).
Defined.

(** X16: a pointer-up in source mode whose coordinates resolve to no
    document position, or to offset 0 (the start of the first line, which
    the test [!pos] does not tell from no position), changes neither the
    focus nor the decorations: the workspace is left as it was. *)
Theorem X16_click_without_position {FocusManager} previewPointerUp
    (w : World FocusManager) (up : PointerEvent) view ev :
  activeView (workspace w) = Some view → getMode view = source → cm view = Some ev →
  posAtCoords ev (clientX up) (clientY up) = None
  ∨ posAtCoords ev (clientX up) (clientY up) = Some 0 →
  ∃ w', pointerup previewPointerUp w up = Ok w'
    ∧ workspace w' = workspace w
    ∧ focusManager (plugin w') = focusManager (plugin w).
Proof.
  intros Hview Hmode Hcm Hpos. unfold pointerup.
  destruct (isEnabled (settings (plugin w))); cbn [negb]; [|by eexists].
  destruct (PrimFloat.ltb _ _); [by eexists|].
  destruct (target up) as [el|]; [|by eexists].
  rewrite Hview, Hmode. unfold handleEditModeClick, getEditorView.
  rewrite Hview. cbn [mbind option_bind]. rewrite Hcm. cbn [plugin workspace].
  destruct Hpos as [-> | ->]; by eexists.
Qed.

Lemma X16_click_without_position_witness :
  ∃ w',
    pointerup (λ _ _ _ fm, fm)
      {| plugin := plugin sample_world;
         workspace :=
           {| activeView :=
                Some {| getMode := source;
                        cm := Some {| state := EditorState_create H1doc;
                                      posAtCoords := λ _ _, Some 0 |} |};
              fileCache := None |} |}
      (pointer_at 300) = Ok w'
    ∧ workspace w'
      = {| activeView :=
             Some {| getMode := source;
                     cm := Some {| state := EditorState_create H1doc;
                                   posAtCoords := λ _ _, Some 0 |} |};
           fileCache := None |}
    ∧ focusManager (plugin w') = tt.
Proof.
  exact (X16_click_without_position (λ _ _ _ fm, fm)
           {| plugin := plugin sample_world;
              workspace :=
                {| activeView :=
                     Some {| getMode := source;
                             cm := Some {| state := EditorState_create H1doc;
                                           posAtCoords := λ _ _, Some 0 |} |};
                   fileCache := None |} |}
           (pointer_at 300) _ _ eq_refl eq_refl eq_refl (or_intror eq_refl)).
Defined.

(** ** Settings and lifecycle *)

Lemma clearEditorFocus_eq ws : clearEditorFocus ws = Ok (cleared_workspace ws).
Proof.
  unfold clearEditorFocus, cleared_workspace.
  destruct (getEditorView ws) as [ev|]; [|done]. by rewrite clearFocus_eq.
Qed.

Lemma editor_cleared_workspace ws :
  state <$> getEditorView (cleared_workspace ws)
  = (λ ev, EditorState_create (state_doc (state ev))) <$> getEditorView ws.
Proof.
  unfold cleared_workspace. destruct (getEditorView ws) as [ev|] eqn:Hev.
  - by rewrite (getEditorView_with_editor_state ws ev).
  - by rewrite Hev.
Qed.

Lemma cleared_workspace_idemp ws :
  cleared_workspace (cleared_workspace ws) = cleared_workspace ws.
Proof.
  unfold cleared_workspace at 2 3. destruct (getEditorView ws) as [ev|] eqn:Hev.
  - unfold cleared_workspace.
    rewrite (getEditorView_with_editor_state ws ev _ Hev). cbn [state state_doc EditorState_create].
    unfold with_editor_state. cbn [activeView fileCache]. f_equal.
    destruct (activeView ws) as [v|]; [|done]. simpl. do 2 f_equal.
    by destruct (cm v).
  - unfold cleared_workspace. by rewrite Hev.
Qed.

Lemma set_isEnabled_twice s :
  set_isEnabled (set_isEnabled s (negb (isEnabled s))) (negb (negb (isEnabled s))) = s.
Proof. destruct s as [? ? ? ? ? ? []]; reflexivity. Qed.

Lemma assign_saved_of base s : assign_settings base (Some (saved_of s)) = s.
Proof. by destruct s. Qed.

Section LifecycleFacts.

Context {FocusManager : Type}.
Variable fm_clearAll : FocusManager → FocusManager.
Variable fm_clear : Workspace → FocusManager → FocusManager.
Variable fm_changePane : Workspace → FocusManager → FocusManager.
Variable fm_setIncludeBody : bool → FocusManager → FocusManager.
Variable fm_init : FocusManager → FocusManager.
Variable fm_destroy : FocusManager → FocusManager.

Implicit Types (h : PluginHost FocusManager) (s : FocusPluginSettings).

Lemma settingsPreprocessor_eq h s :
  settingsPreprocessor fm_clearAll fm_setIncludeBody fm_init fm_destroy h s
  = Ok {| world :=
            {| plugin :=
                 {| settings := settings (plugin (world h));
                    focusManager :=
                      (if isEnabled s then fm_init else fm_destroy)
                        (fm_setIncludeBody (scope_is_content s)
                           (fm_clearAll (focusManager (plugin (world h)))));
                    editModeFocusManager :=
                      setIncludeBody (editModeFocusManager (plugin (world h)))
                        (scope_is_content s);
                    lastClick := lastClick (plugin (world h)) |};
               workspace := cleared_workspace (workspace (world h)) |};
          data := data h;
          statusBarItem := indicator s;
          indicatorEl := if isEnabled s then "Focus: on"%string else "Focus: off"%string |}.
Proof.
  unfold settingsPreprocessor. rewrite clearEditorFocus_eq. result_step.
  do 2 f_equal.
  - by destruct (isEnabled s).
  - by destruct (indicator s), (statusBarItem h).
Qed.

(** X17: the reconciliation [settingsPreprocessor] never raises and
    leaves the plugin in line with the settings it is given: the
    edit-mode manager includes bodies exactly when the focus scope is
    'content', the editor has neither focus nor decorations while its
    document is untouched, the status-bar item exists exactly when
    [indicator] is set, and the indicator reads "Focus: on" or
    "Focus: off" as [isEnabled] says; settings, metadata and saved data
    are left alone. *)
Theorem X17_settings_reconciled h s :
  ∃ h',
    settingsPreprocessor fm_clearAll fm_setIncludeBody fm_init fm_destroy h s = Ok h'
    ∧ (includeBody (editModeFocusManager (plugin (world h'))) = true
       ↔ focusScope s = scope_content)
    ∧ editor_state (world h')
      = (λ st, EditorState_create (state_doc st)) <$> editor_state (world h)
    ∧ statusBarItem h' = indicator s
    ∧ indicatorEl h'
      = (if isEnabled s then "Focus: on"%string else "Focus: off"%string)
    ∧ settings (plugin (world h')) = settings (plugin (world h))
    ∧ metadata (editModeFocusManager (plugin (world h')))
      = metadata (editModeFocusManager (plugin (world h)))
    ∧ data h' = data h.
Proof.
  eexists. split; [apply settingsPreprocessor_eq|].
  cbn [world plugin workspace settings editModeFocusManager statusBarItem indicatorEl
       data setIncludeBody includeBody metadata].
  split; [|split; [|done]].
  - unfold scope_is_content. by destruct (focusScope s).
  - unfold editor_state. cbn [workspace]. rewrite editor_cleared_workspace.
    by destruct (getEditorView (workspace (world h))).
Qed.

(** X18: [toggle] flips [isEnabled] and nothing else in the settings,
    saves the flipped settings, and shows the new state in the indicator;
    toggling twice brings back the original settings, saved. *)
Theorem X18_toggle_twice h :
  ∃ h1 h2,
    toggle fm_clearAll fm_setIncludeBody fm_init fm_destroy h = Ok h1
    ∧ settings (plugin (world h1))
      = set_isEnabled (settings (plugin (world h)))
          (negb (isEnabled (settings (plugin (world h)))))
    ∧ data h1 = Some (saved_of (settings (plugin (world h1))))
    ∧ indicatorEl h1
      = (if isEnabled (settings (plugin (world h)))
         then "Focus: off"%string else "Focus: on"%string)
    ∧ toggle fm_clearAll fm_setIncludeBody fm_init fm_destroy h1 = Ok h2
    ∧ settings (plugin (world h2)) = settings (plugin (world h))
    ∧ data h2 = Some (saved_of (settings (plugin (world h)))).
Proof.
  eexists _, _. split.
  { unfold toggle, saveSettings. apply settingsPreprocessor_eq. }
  cbn [world plugin settings data indicatorEl with_settings].
  split; [done|]. split; [done|].
  split; [by destruct (isEnabled (settings (plugin (world h))))|].
  split.
  { unfold toggle, saveSettings. apply settingsPreprocessor_eq. }
  cbn [world plugin settings data with_settings set_isEnabled isEnabled].
  split.
  - apply set_isEnabled_twice.
  - f_equal. f_equal. apply set_isEnabled_twice.
Qed.

(** X19: once [toggle] has switched an enabled plugin off, the editor is
    unfocused and every click, fast or slow and on whatever target, is
    ignored: the pointer-up leaves the plugin and the workspace as the
    pointer-down left them. *)
Theorem X19_disabled_ignores_clicks h :
  isEnabled (settings (plugin (world h))) = true →
  ∃ h',
    toggle fm_clearAll fm_setIncludeBody fm_init fm_destroy h = Ok h'
    ∧ isEnabled (settings (plugin (world h'))) = false
    ∧ editor_state (world h')
      = (λ st, EditorState_create (state_doc st)) <$> editor_state (world h)
    ∧ ∀ previewPointerUp down up,
        click previewPointerUp (world h') down up = Ok (pointerdown (world h') down).
Proof.
  intros Hen. eexists. split.
  { unfold toggle, saveSettings. apply settingsPreprocessor_eq. }
  cbn [world plugin settings with_settings set_isEnabled isEnabled].
  rewrite Hen. split; [done|]. split.
  - unfold editor_state. cbn [workspace world with_settings].
    rewrite editor_cleared_workspace.
    by destruct (getEditorView (workspace (world h))).
  - intros previewPointerUp down up. unfold click, pointerup, pointerdown.
    cbn [plugin settings isEnabled]. done.
Qed.

(** X20: saving and loading round-trip: [loadSettings] after
    [saveSettings] finds the very settings that were saved and leaves the
    saved data, the workspace, the status-bar item, the indicator text
    and the edit-mode manager as the save left them; and with nothing
    saved, [loadSettings] installs the default settings. *)
Theorem X20_save_load_round_trip h :
  (∃ h1 h2,
     saveSettings fm_clearAll fm_setIncludeBody fm_init fm_destroy h = Ok h1
     ∧ loadSettings fm_clearAll fm_setIncludeBody fm_init fm_destroy h1 = Ok h2
     ∧ settings (plugin (world h2)) = settings (plugin (world h))
     ∧ data h2 = data h1
     ∧ workspace (world h2) = workspace (world h1)
     ∧ statusBarItem h2 = statusBarItem h1
     ∧ indicatorEl h2 = indicatorEl h1
     ∧ editModeFocusManager (plugin (world h2)) = editModeFocusManager (plugin (world h1)))
  ∧ (data h = None →
     ∃ h', loadSettings fm_clearAll fm_setIncludeBody fm_init fm_destroy h = Ok h'
       ∧ settings (plugin (world h')) = DEFAULT_SETTINGS).
Proof.
  split.
  - eexists _, _. split; [unfold saveSettings; apply settingsPreprocessor_eq|].
    split; [unfold loadSettings; apply settingsPreprocessor_eq|].
    cbn [world plugin settings data workspace statusBarItem indicatorEl
         editModeFocusManager with_settings].
    rewrite assign_saved_of. split; [done|]. split; [done|].
    split; [apply cleared_workspace_idemp|]. done.
  - intros Hdata. eexists. split; [unfold loadSettings; apply settingsPreprocessor_eq|].
    cbn [world plugin settings with_settings]. by rewrite Hdata.
Qed.

(** X21: the [clear-focus] command, [onunload] and a layout change in
    preview mode never raise and leave the editor without focus or
    decorations, its document untouched; a layout change in source mode
    and a change of the active leaf leave the whole workspace and the
    edit-mode manager as they were; none of them changes the settings. *)
Theorem X21_lifecycle_clears_focus h :
  (∃ h', clearFocusCommand fm_clearAll h = Ok h'
     ∧ editor_state (world h')
       = (λ st, EditorState_create (state_doc st)) <$> editor_state (world h)
     ∧ settings (plugin (world h')) = settings (plugin (world h)))
  ∧ (∃ h', onunload fm_destroy h = Ok h'
       ∧ editor_state (world h')
         = (λ st, EditorState_create (state_doc st)) <$> editor_state (world h)
       ∧ settings (plugin (world h')) = settings (plugin (world h)))
  ∧ (∃ h', layoutChange fm_clearAll fm_clear h = Ok h'
       ∧ settings (plugin (world h')) = settings (plugin (world h))
       ∧ editModeFocusManager (plugin (world h'))
         = editModeFocusManager (plugin (world h))
       ∧ (getMode <$> activeView (workspace (world h)) = Some preview →
          editor_state (world h')
          = (λ st, EditorState_create (state_doc st)) <$> editor_state (world h))
       ∧ (getMode <$> activeView (workspace (world h)) ≠ Some preview →
          workspace (world h') = workspace (world h)))
  ∧ workspace (world (activeLeafChange fm_changePane h)) = workspace (world h)
  ∧ settings (plugin (world (activeLeafChange fm_changePane h)))
    = settings (plugin (world h))
  ∧ editModeFocusManager (plugin (world (activeLeafChange fm_changePane h)))
    = editModeFocusManager (plugin (world h)).
Proof.
  assert (editor_state
            {| plugin := plugin (world h);
               workspace := cleared_workspace (workspace (world h)) |}
          = (λ st, EditorState_create (state_doc st)) <$> editor_state (world h))
    as Hcleared.
  { unfold editor_state. cbn [workspace]. rewrite editor_cleared_workspace.
    by destruct (getEditorView (workspace (world h))). }
  split; [|split; [|split]].
  - unfold clearFocusCommand. rewrite clearEditorFocus_eq. result_step.
    eexists. split; [reflexivity|]. split; [exact Hcleared|done].
  - unfold onunload. rewrite clearEditorFocus_eq. result_step.
    eexists. split; [reflexivity|]. split; [exact Hcleared|done].
  - unfold layoutChange.
    destruct (activeView (workspace (world h))) as [view|] eqn:Hview.
    2:{ exists h. repeat split; done. }
    destruct (getMode view) eqn:Hmode.
    + rewrite clearEditorFocus_eq. result_step.
      eexists. split; [reflexivity|]. split; [done|]. split; [done|].
      split; [intros _; exact Hcleared|].
      simpl. rewrite Hmode. done.
    + eexists. split; [reflexivity|]. split; [done|]. split; [done|].
      split; [|done]. simpl. rewrite Hmode. done.
  - unfold activeLeafChange.
    destruct (activeView (workspace (world h))) as [view|]; [|done].
    by destruct (getMode view).
Qed.

End LifecycleFacts.

Lemma X19_disabled_ignores_clicks_witness :
  ∃ h',
    toggle id (λ _, id) id id sample_host = Ok h'
    ∧ isEnabled (settings (plugin (world h'))) = false
    ∧ editor_state (world h')
      = (λ st, EditorState_create (state_doc st)) <$> editor_state (world sample_host)
    ∧ ∀ previewPointerUp down up,
        click previewPointerUp (world h') down up = Ok (pointerdown (world h') down).
Proof.
  exact (X19_disabled_ignores_clicks id (λ _, id) id id sample_host eq_refl).
Defined.

Lemma X20_save_load_round_trip_witness :
  ∃ h', loadSettings id (λ _, id) id id sample_host = Ok h'
    ∧ settings (plugin (world h')) = DEFAULT_SETTINGS.
Proof.
  exact (proj2 (X20_save_load_round_trip id (λ _, id) id id sample_host) eq_refl).
Defined.

Lemma X21_lifecycle_clears_focus_witness :
  ∃ h', layoutChange id (λ _, id) sample_host = Ok h'
    ∧ workspace (world h') = workspace (world sample_host).
Proof.
  destruct (proj1 (proj2 (proj2 (X21_lifecycle_clears_focus id (λ _, id) (λ _, id) id
                                   sample_host)))) as (h' & Heq & _ & _ & _ & Hws).
  exists h'. split; [exact Heq|]. apply Hws. discriminate.
Defined.

Section SettingsTabFacts.

Context {FocusManager : Type}.
Variable fm_clearAll : FocusManager → FocusManager.
Variable fm_setIncludeBody : bool → FocusManager → FocusManager.
Variable fm_init : FocusManager → FocusManager.
Variable fm_destroy : FocusManager → FocusManager.

(** X22: a change made in the settings tab takes effect at once: the
    handler installs the changed settings, saves exactly them and
    reconciles; when the change leaves the focus scope at 'block', the
    edit-mode manager stops including bodies, so that from then on a click
    on a heading line focuses that line alone, whatever metadata the
    manager is given. *)
Theorem X22_setting_change_applies (h : PluginHost FocusManager)
    (assign : FocusPluginSettings → FocusPluginSettings) :
  ∃ h',
    onChange fm_clearAll fm_setIncludeBody fm_init fm_destroy assign h = Ok h'
    ∧ settings (plugin (world h')) = assign (settings (plugin (world h)))
    ∧ data h' = Some (saved_of (assign (settings (plugin (world h)))))
    ∧ (focusScope (assign (settings (plugin (world h)))) = scope_block →
       ∀ md (doc : Doc) n l lvl,
         line doc n = Ok l → heading_line (text l) lvl →
         getFocusInfoForLine
           (setMetadata (editModeFocusManager (plugin (world h'))) md) n doc
         = Ok (Some {| fromLine := n; toLine := n; type := heading;
                       level := Some lvl |})).
Proof.
  eexists. split.
  { unfold onChange, saveSettings. apply settingsPreprocessor_eq. }
  cbn [world plugin settings data editModeFocusManager with_settings].
  split; [done|]. split; [done|].
  intros Hblock md doc n l lvl Hl Hpat.
  unfold getFocusInfoForLine. rewrite Hl. result_step.
  apply heading_match_iff in Hpat. rewrite Hpat.
  rewrite getHeadingFocusInfo_block; [done|].
  cbn [setMetadata setIncludeBody includeBody]. unfold scope_is_content.
  by rewrite Hblock.
Qed.

End SettingsTabFacts.

Lemma X22_setting_change_applies_witness :
  ∃ h',
    onChange id (λ _, id) id id
      (λ s, {| clearMethod := clearMethod s; contentBehavior := contentBehavior s;
               focusScope := scope_block; enableList := enableList s;
               focusSensitivity := focusSensitivity s; indicator := indicator s;
               isEnabled := isEnabled s |})
      sample_host = Ok h'
    ∧ getFocusInfoForLine
        (setMetadata (editModeFocusManager (plugin (world h'))) (Some adjacent_metadata))
        1 adjacent_doc
      = Ok (Some {| fromLine := 1; toLine := 1; type := heading; level := Some 1 |}).
Proof.
  destruct (X22_setting_change_applies id (λ _, id) id id sample_host
              (λ s, {| clearMethod := clearMethod s;
                       contentBehavior := contentBehavior s;
                       focusScope := scope_block; enableList := enableList s;
                       focusSensitivity := focusSensitivity s;
                       indicator := indicator s; isEnabled := isEnabled s |}))
    as (h' & Heq & _ & _ & Hblock).
  exists h'. split; [exact Heq|].
  apply (Hblock eq_refl (Some adjacent_metadata) adjacent_doc 1
           {| number := 1; from := 0; text := js "# A" |} 1 eq_refl).
  apply heading_match_iff. reflexivity.
Defined.

(** ** The focus-state field on the transactions the plugin dispatches *)

Lemma focusState_loop_only_set effs value v :
  setFocusEffect v ∈ effs →
  Forall (λ e, e = setFocusEffect v ∨ e = otherEffect) effs →
  focusState_loop effs value = v.
Proof.
  intros Hin Hall. induction Hall as [|e effs [->| ->] _ IH]; simpl.
  - by apply elem_of_nil in Hin.
  - done.
  - apply IH. apply elem_of_cons in Hin as [Heq|Hin]; [done|done].
Qed.

Lemma focusState_loop_only_clear effs value :
  clearFocusEffect ∈ effs →
  Forall (λ e, e = clearFocusEffect ∨ e = otherEffect) effs →
  focusState_loop effs value = None.
Proof.
  intros Hin Hall. induction Hall as [|e effs [->| ->] _ IH]; simpl.
  - by apply elem_of_nil in Hin.
  - done.
  - apply IH. apply elem_of_cons in Hin as [Heq|Hin]; [done|done].
Qed.

(** C7: the focus state changes only through the two effects. A
    transaction that carries a set-focus effect (and, besides it, only
    effects of other extensions) makes the state equal to the effect's
    payload; one that carries a clear-focus effect makes it absent; and
    every transaction that carries neither leaves the focus state
    unchanged. The transactions [applyFocus] and [clearFocus] dispatch
    are of the first two kinds: after them the state is the given focus
    and absent. *)
Theorem C7_focus_state_effects (value : option EditModeFocusInfo) (tr : Transaction) :
  (∀ v,
     setFocusEffect v ∈ effects tr →
     Forall (λ e, e = setFocusEffect v ∨ e = otherEffect) (effects tr) →
     focusStateField_update value tr = v)
  ∧ (clearFocusEffect ∈ effects tr →
     Forall (λ e, e = clearFocusEffect ∨ e = otherEffect) (effects tr) →
     focusStateField_update value tr = None)
  ∧ (Forall (λ e, is_focus_effect e = false) (effects tr) →
     focusStateField_update value tr = value)
  ∧ (∀ st f, ∃ st', applyFocus st f = Ok st' ∧ state_focus st' = Some f)
  ∧ (∀ st, ∃ st', clearFocus st = Ok st' ∧ state_focus st' = None).
Proof.
  unfold focusStateField_update. split; [|split; [|split; [|split]]].
  - intros v. apply focusState_loop_only_set.
  - apply focusState_loop_only_clear.
  - apply focusState_loop_unchanged.
  - intros st f. eexists. split; [apply applyFocus_eq|done].
  - intros st. eexists. split; [apply clearFocus_eq|done].
Qed.

Lemma C7_focus_state_effects_witness :
  focusStateField_update None other_then_set = Some sample_focus
  ∧ focusStateField_update (Some sample_focus) other_then_clear = None
  ∧ focusStateField_update (Some sample_focus) only_others = Some sample_focus.
Proof.
  split; [|split].
  - refine (proj1 (C7_focus_state_effects None other_then_set) (Some sample_focus) _ _).
    + apply list_elem_of_further, list_elem_of_here.
    + constructor; [by right|]. constructor; [by left|constructor].
  - refine (proj1 (proj2 (C7_focus_state_effects (Some sample_focus) other_then_clear))
              _ _).
    + apply list_elem_of_further, list_elem_of_here.
    + constructor; [by right|]. constructor; [by left|].
      constructor; [by right|constructor].
  - refine (proj1 (proj2 (proj2 (C7_focus_state_effects (Some sample_focus)
                                   only_others))) _).
    constructor; [reflexivity|]. constructor; [reflexivity|constructor].
Defined.
